(** * MCP bridge (src/mcp-client.py): a shallow embedding in Rocq

    The bridge talks to a child process over line-framed JSON.  Its wire
    codec is Python's [json.dumps] (default separators, [ensure_ascii]) on
    the way out and [json.loads] (after [.decode().strip()]) on the way in;
    module [Json] models both.  Module [Bridge] models [MCPClient] and the
    FastAPI endpoints as a state-and-exception monad over the client object.
    Module [Interleave] models two endpoint handlers running concurrently on
    the asyncio event loop against the one shared child process. *)

From Stdlib Require Import String Ascii List ZArith Bool Lia.
From Stdlib Require Import Decimal DecimalZ DecimalPos DecimalFacts.
Import ListNotations.
Open Scope string_scope.
Set Warnings "-register-all".

Module Json.

(** Python values that the bridge serialises: [None], [bool], [int],
    [str], [list] and [dict] with string keys.  A [str] is a sequence of
    code points 0..0x10ffff; it is represented by its UTF-8 form (see
    [utf8_cp]), an injective encoding, so two [str]s are equal exactly when
    their forms are.  Floats are not represented. *)
Inductive json : Type :=
| JNull
| JBool (b : bool)
| JInt (z : Z)
| JStr (s : string)
| JList (items : list json)
| JDict (members : list (string * json)).

Definition dq : ascii := ascii_of_nat 34.
Definition bsl : ascii := ascii_of_nat 92.
Definition ceq (a b : ascii) : bool := Ascii.eqb a b.

Definition sing (c : ascii) : string := String c EmptyString.

(** ** Code points and their UTF-8 forms *)

(** The UTF-8 bytes of code point [n]; a surrogate (0xd800..0xdfff) is
    encoded like any other three-byte code point, as the [surrogatepass]
    handler does, so that every [str] has a form. *)
Definition utf8_cp (n : N) : string :=
  let b (k : N) := ascii_of_N k in
  if (n <? 128)%N then sing (b n)
  else if (n <? 2048)%N then String (b (192 + n / 64)%N) (sing (b (128 + n mod 64)%N))
  else if (n <? 65536)%N then
    String (b (224 + n / 4096)%N) (String (b (128 + (n / 64) mod 64)%N) (sing (b (128 + n mod 64)%N)))
  else
    String (b (240 + n / 262144)%N) (String (b (128 + (n / 4096) mod 64)%N)
      (String (b (128 + (n / 64) mod 64)%N) (sing (b (128 + n mod 64)%N)))).

Definition is_surrogate (n : N) : bool := ((55296 <=? n) && (n <=? 57343))%N.

(** A code point; with [sg = false] also not a surrogate. *)
Definition cp_ok (sg : bool) (n : N) : bool := ((n <=? 1114111)%N && (sg || negb (is_surrogate n))).

Definition cont_val (c : ascii) : N := (N_of_ascii c - 128)%N.

Definition cons_cp (n : N) (r : option (list N)) : option (list N) :=
  match r with Some l => Some (n :: l) | None => None end.

(** UTF-8 decoding: the lead byte gives the length of a group, and a group
    is accepted when it is the form [utf8_cp] of the code point it spells
    (which refuses stray continuation bytes, overlong forms and values
    above 0x10ffff); surrogates are accepted only with [sg = true]. *)
Fixpoint decode_cps (sg : bool) (s : string) : option (list N) :=
  match s with
  | EmptyString => Some []
  | String c1 s1 =>
      let n1 := N_of_ascii c1 in
      if (n1 <? 128)%N then cons_cp n1 (decode_cps sg s1)
      else if (n1 <? 224)%N then
        match s1 with
        | String c2 s2 =>
            let n := ((n1 - 192) * 64 + cont_val c2)%N in
            if cp_ok sg n && String.eqb (utf8_cp n) (String c1 (sing c2))
            then cons_cp n (decode_cps sg s2) else None
        | EmptyString => None
        end
      else if (n1 <? 240)%N then
        match s1 with
        | String c2 (String c3 s3) =>
            let n := ((n1 - 224) * 4096 + cont_val c2 * 64 + cont_val c3)%N in
            if cp_ok sg n && String.eqb (utf8_cp n) (String c1 (String c2 (sing c3)))
            then cons_cp n (decode_cps sg s3) else None
        | _ => None
        end
      else
        match s1 with
        | String c2 (String c3 (String c4 s4)) =>
            let n := ((n1 - 240) * 262144 + cont_val c2 * 4096 + cont_val c3 * 64 + cont_val c4)%N in
            if cp_ok sg n && String.eqb (utf8_cp n) (String c1 (String c2 (String c3 (sing c4))))
            then cons_cp n (decode_cps sg s4) else None
        | _ => None
        end
  end.

(** The form of a sequence of code points. *)
Definition encode_cps (l : list N) : string :=
  fold_right (fun n acc => utf8_cp n ++ acc) EmptyString l.

Fixpoint bytes_cps (s : string) : list N :=
  match s with
  | EmptyString => []
  | String c s' => N_of_ascii c :: bytes_cps s'
  end.

(** The code points of a [str] from its form (a string that is no form, and
    so no [str], is read byte by byte). *)
Definition str_cps (s : string) : list N :=
  match decode_cps true s with Some l => l | None => bytes_cps s end.

(** [bytes.decode()]: strict UTF-8; the [str] has the bytes as its form.
    [None] is a raised [UnicodeDecodeError]. *)
Definition utf8_decode (b : string) : option string :=
  match decode_cps false b with Some _ => Some b | None => None end.

(** ** Encoder: [json.dumps(obj)] *)

(** Lower-case hexadecimal digit, [n < 16]. *)
Definition hex_digit (n : N) : ascii :=
  ascii_of_N (if (n <? 10)%N then 48 + n else 87 + n)%N.

(** [\uXXXX], lower-case hexadecimal, of [n < 65536]. *)
Definition u_escape (n : N) : string :=
  String bsl (String "u" (String (hex_digit (n / 4096 mod 16)) (String (hex_digit (n / 256 mod 16))
    (String (hex_digit (n / 16 mod 16)) (sing (hex_digit (n mod 16))))))).

(** [ascii_escape_unichar] on an ASCII character: printable ASCII other
    than backslash and double quote is kept, the seven short escapes are
    used where they exist, anything else becomes [\u00XX]. *)
Definition escape_char (c : ascii) : string :=
  let n := N_of_ascii c in
  if ceq c dq then String bsl (sing dq)
  else if ceq c bsl then String bsl (sing bsl)
  else if (n =? 8)%N then String bsl "b"
  else if (n =? 12)%N then String bsl "f"
  else if (n =? 10)%N then String bsl "n"
  else if (n =? 13)%N then String bsl "r"
  else if (n =? 9)%N then String bsl "t"
  else if ((32 <=? n) && (n <=? 126))%N then sing c
  else u_escape n.

(** [ascii_escape_unichar]: a code point outside ASCII is [\uXXXX], and
    above 0xffff the surrogate pair [\udXXX\udXXX]. *)
Definition escape_cp (n : N) : string :=
  if (n <? 128)%N then escape_char (ascii_of_N n)
  else if (n <? 65536)%N then u_escape n
  else u_escape (55296 + (n - 65536) / 1024) ++ u_escape (56320 + (n - 65536) mod 1024).

Fixpoint escape_cps (l : list N) : string :=
  match l with
  | [] => EmptyString
  | n :: l' => escape_cp n ++ escape_cps l'
  end.

(** [c_encode_basestring_ascii] *)
Definition quote (s : string) : string := String dq (escape_cps (str_cps s) ++ sing dq).

Fixpoint uint_to_string (u : uint) : string :=
  match u with
  | Nil => EmptyString
  | D0 u => String "0" (uint_to_string u)
  | D1 u => String "1" (uint_to_string u)
  | D2 u => String "2" (uint_to_string u)
  | D3 u => String "3" (uint_to_string u)
  | D4 u => String "4" (uint_to_string u)
  | D5 u => String "5" (uint_to_string u)
  | D6 u => String "6" (uint_to_string u)
  | D7 u => String "7" (uint_to_string u)
  | D8 u => String "8" (uint_to_string u)
  | D9 u => String "9" (uint_to_string u)
  end.

(** [int.__repr__]: decimal, with a leading minus sign when negative. *)
Definition int_repr (z : Z) : string :=
  match Z.to_int z with
  | Pos u => uint_to_string u
  | Neg u => String "-" (uint_to_string u)
  end.

(** [json.dumps] with [item_separator = ", "] and [key_separator = ": "]. *)
Fixpoint dumps (v : json) : string :=
  match v with
  | JNull => "null"
  | JBool true => "true"
  | JBool false => "false"
  | JInt z => int_repr z
  | JStr s => quote s
  | JList [] => "[]"
  | JList (x :: xs) =>
      let fix items (l : list json) : string :=
        match l with
        | [] => "]"
        | y :: ys => ", " ++ dumps y ++ items ys
        end in
      String "[" (dumps x ++ items xs)
  | JDict [] => "{}"
  | JDict ((k, x) :: kvs) =>
      let fix members (l : list (string * json)) : string :=
        match l with
        | [] => "}"
        | (k', y) :: l' => ", " ++ quote k' ++ ": " ++ dumps y ++ members l'
        end in
      String "{" (quote k ++ ": " ++ dumps x ++ members kvs)
  end.

(** The two inner loops of [dumps] as functions of their own. *)
Fixpoint dumps_items (l : list json) : string :=
  match l with
  | [] => "]"
  | y :: ys => ", " ++ dumps y ++ dumps_items ys
  end.

Fixpoint dumps_members (l : list (string * json)) : string :=
  match l with
  | [] => "}"
  | (k', y) :: l' => ", " ++ quote k' ++ ": " ++ dumps y ++ dumps_members l'
  end.

(** ** Decoder: [json.loads(text)] (the C scanner of the [json] module) *)

(** [WHITESPACE = r'[ \t\n\r]*'] *)
Definition is_json_ws (c : ascii) : bool :=
  let n := N_of_ascii c in ((n =? 32) || (n =? 9) || (n =? 10) || (n =? 13))%N.

Fixpoint skip_ws (s : string) : string :=
  match s with
  | String c s' => if is_json_ws c then skip_ws s' else s
  | EmptyString => EmptyString
  end.

Definition digit_val (c : ascii) : option nat :=
  let n := N_of_ascii c in
  if ((48 <=? n) && (n <=? 57))%N then Some (N.to_nat (n - 48)) else None.

Definition is_digit (c : ascii) : bool :=
  match digit_val c with Some _ => true | None => false end.

Definition cons_digit (d : nat) (u : uint) : uint :=
  match d with
  | 0 => D0 u | 1 => D1 u | 2 => D2 u | 3 => D3 u | 4 => D4 u
  | 5 => D5 u | 6 => D6 u | 7 => D7 u | 8 => D8 u | _ => D9 u
  end.

(** The maximal run of decimal digits at the front of [s]. *)
Fixpoint take_digits (s : string) : uint * string :=
  match s with
  | String c s' =>
      match digit_val c with
      | Some d => let (u, r) := take_digits s' in (cons_digit d u, r)
      | None => (Nil, s)
      end
  | EmptyString => (Nil, EmptyString)
  end.

(** After the integer part, [_match_number_unicode] goes on with a fraction
    ([.] and a digit) or an exponent ([e]/[E], a sign, a digit); either one
    makes the number a [float], outside the values of this development. *)
Definition float_follows (s : string) : bool :=
  match s with
  | String c r =>
      if ceq c "." then
        match r with String d _ => is_digit d | EmptyString => false end
      else if ceq c "e" || ceq c "E" then
        match r with
        | String d r' =>
            if is_digit d then true
            else if ceq d "+" || ceq d "-" then
              match r' with String e _ => is_digit e | EmptyString => false end
            else false
        | EmptyString => false
        end
      else false
  | EmptyString => false
  end.

(** An optional minus sign, then 0 or a non-zero digit followed by digits, as an [int]. *)
Definition parse_number (s : string) : option (Z * string) :=
  let '(neg, s1) :=
    match s with
    | String c s' => if ceq c "-" then (true, s') else (false, s)
    | EmptyString => (false, s)
    end in
  let result (u : uint) (r : string) :=
    if float_follows r then None
    else Some (Z.of_int (if neg then Neg u else Pos u), r) in
  match s1 with
  | String c s2 =>
      match digit_val c with
      | Some 0 => result (D0 Nil) s2
      | Some d => let (u, r) := take_digits s2 in result (cons_digit d u) r
      | None => None
      end
  | EmptyString => None
  end.

Definition hex_val (c : ascii) : option N :=
  let n := N_of_ascii c in
  if ((48 <=? n) && (n <=? 57))%N then Some (n - 48)%N
  else if ((97 <=? n) && (n <=? 102))%N then Some (n - 87)%N
  else if ((65 <=? n) && (n <=? 70))%N then Some (n - 55)%N
  else None.

Definition hex4 (a b c d : ascii) : option N :=
  match hex_val a, hex_val b, hex_val c, hex_val d with
  | Some x1, Some x2, Some x3, Some x4 => Some (x1 * 4096 + x2 * 256 + x3 * 16 + x4)%N
  | _, _, _, _ => None
  end.

(** The one-character escapes of [scanstring]. *)
Definition short_escape (e : ascii) : option ascii :=
  if ceq e dq then Some dq
  else if ceq e bsl then Some bsl
  else if ceq e "/" then Some "/"%char
  else if ceq e "b" then Some (ascii_of_nat 8)
  else if ceq e "f" then Some (ascii_of_nat 12)
  else if ceq e "n" then Some (ascii_of_nat 10)
  else if ceq e "r" then Some (ascii_of_nat 13)
  else if ceq e "t" then Some (ascii_of_nat 9)
  else None.

Definition is_high (n : N) : bool := ((55296 <=? n) && (n <=? 56319))%N.
Definition is_low (n : N) : bool := ((56320 <=? n) && (n <=? 57343))%N.
Definition join_surrogates (hi lo : N) : N := (65536 + (hi - 55296) * 1024 + (lo - 56320))%N.

Definition cons_res (p : string) (r : option (string * string)) : option (string * string) :=
  match r with
  | Some (t, r') => Some (p ++ t, r')
  | None => None
  end.

(** [scanstring_unicode] (strict): the text after an opening double quote,
    up to the closing one.  Control characters are refused, other
    characters are copied.  After a [\uXXXX] escape giving a high surrogate,
    when seven more characters follow, a second [\u] escape is read: invalid
    hexadecimal digits there are an error, a low surrogate is joined with
    the first one, and otherwise the scanner goes on right after the first
    escape.  (With exactly six characters left the scanner does not look
    for a pair; the string is then unterminated and both readings fail.) *)
Fixpoint scan_string (s : string) : option (string * string) :=
  match s with
  | EmptyString => None
  | String c s1 =>
      if ceq c dq then Some (EmptyString, s1)
      else if ceq c bsl then
        match s1 with
        | String e s2 =>
            if ceq e "u" then
              match s2 with
              | String h1 (String h2 (String h3 (String h4 s3))) =>
                  match hex4 h1 h2 h3 h4 with
                  | Some code =>
                      if is_high code then
                        match s3 with
                        | String b (String u (String k1 (String k2 (String k3 (String k4 s4))))) =>
                            if ceq b bsl && ceq u "u" then
                              match hex4 k1 k2 k3 k4 with
                              | Some code2 =>
                                  if is_low code2
                                  then cons_res (utf8_cp (join_surrogates code code2)) (scan_string s4)
                                  else cons_res (utf8_cp code) (scan_string s3)
                              | None => None
                              end
                            else cons_res (utf8_cp code) (scan_string s3)
                        | _ => cons_res (utf8_cp code) (scan_string s3)
                        end
                      else cons_res (utf8_cp code) (scan_string s3)
                  | None => None
                  end
              | _ => None
              end
            else
              match short_escape e with
              | Some c' => cons_res (sing c') (scan_string s2)
              | None => None
              end
        | EmptyString => None
        end
      else if (N_of_ascii c <? 32)%N then None
      else cons_res (sing c) (scan_string s1)
  end.

(** [s[idx:idx + len(p)] == p]: the rest of [s] after the literal [p]. *)
Fixpoint strip_prefix (p s : string) : option string :=
  match p with
  | EmptyString => Some s
  | String c p' =>
      match s with
      | String d s' => if ceq c d then strip_prefix p' s' else None
      | EmptyString => None
      end
  end.

(** [PyDict_SetItem] on the dict under construction: an existing key keeps
    its place and takes the new value, a new key goes to the end. *)
Fixpoint dict_set (d : list (string * json)) (k : string) (v : json) : list (string * json) :=
  match d with
  | [] => [(k, v)]
  | (k', v') :: d' => if String.eqb k k' then (k, v) :: d' else (k', v') :: dict_set d' k v
  end.

(** [scan_once], [_parse_array] and [_parse_object]; the [nat] argument
    bounds the recursion depth. *)
Fixpoint parse_value (fuel : nat) (s : string) : option (json * string) :=
  match fuel with
  | O => None
  | S f =>
    match s with
    | EmptyString => None
    | String c s1 =>
      if ceq c "{" then
        match skip_ws s1 with
        | String c2 s2 =>
            if ceq c2 "}" then Some (JDict [], s2) else parse_members f [] (String c2 s2)
        | EmptyString => None
        end
      else if ceq c "[" then
        match skip_ws s1 with
        | String c2 s2 =>
            if ceq c2 "]" then Some (JList [], s2)
            else match parse_items f (String c2 s2) with
                 | Some (vs, r) => Some (JList vs, r)
                 | None => None
                 end
        | EmptyString => None
        end
      else if ceq c dq then
        match scan_string s1 with Some (t, r) => Some (JStr t, r) | None => None end
      else if ceq c "n" then
        match strip_prefix "ull" s1 with Some r => Some (JNull, r) | None => None end
      else if ceq c "t" then
        match strip_prefix "rue" s1 with Some r => Some (JBool true, r) | None => None end
      else if ceq c "f" then
        match strip_prefix "alse" s1 with Some r => Some (JBool false, r) | None => None end
      else if ceq c "-" || is_digit c then
        match parse_number s with Some (z, r) => Some (JInt z, r) | None => None end
      else None
    end
  end
with parse_items (fuel : nat) (s : string) : option (list json * string) :=
  match fuel with
  | O => None
  | S f =>
    match parse_value f s with
    | None => None
    | Some (v, r) =>
        match skip_ws r with
        | String c r1 =>
            if ceq c "]" then Some ([v], r1)
            else if ceq c "," then
              match parse_items f (skip_ws r1) with
              | Some (vs, r2) => Some (v :: vs, r2)
              | None => None
              end
            else None
        | EmptyString => None
        end
    end
  end
with parse_members (fuel : nat) (acc : list (string * json)) (s : string)
    : option (json * string) :=
  match fuel with
  | O => None
  | S f =>
    match s with
    | String c s1 =>
        if ceq c dq then
          match scan_string s1 with
          | Some (k, r) =>
              match skip_ws r with
              | String c2 r2 =>
                  if ceq c2 ":" then
                    match parse_value f (skip_ws r2) with
                    | Some (v, r3) =>
                        match skip_ws r3 with
                        | String c3 r4 =>
                            if ceq c3 "}" then Some (JDict (dict_set acc k v), r4)
                            else if ceq c3 "," then parse_members f (dict_set acc k v) (skip_ws r4)
                            else None
                        | EmptyString => None
                        end
                    | None => None
                    end
                  else None
              | EmptyString => None
              end
          | None => None
          end
        else None
    | EmptyString => None
    end
  end.

(** [json.loads]: leading and trailing JSON whitespace, one value, nothing
    else ("Extra data"); [None] is a raised [JSONDecodeError], or a value
    outside this development (a float, [NaN], [Infinity]), so only [Some]
    results are read as Python's.  CPython's limits on nesting
    ([RecursionError]) and on integers of more than 4300 digits
    ([ValueError]) are not modelled; see [within_limits].  Every level of
    nesting consumes input, so [S (length s)] never runs out. *)
Definition loads (s : string) : option json :=
  match parse_value (S (String.length s)) (skip_ws s) with
  | Some (v, r) => match skip_ws r with EmptyString => Some v | _ => None end
  | None => None
  end.

(** [str.strip()]: [Py_UNICODE_ISSPACE] code points removed at both ends. *)
Definition is_space_cp (n : N) : bool :=
  (((9 <=? n) && (n <=? 13)) || ((28 <=? n) && (n <=? 32)) || (n =? 133) || (n =? 160)
   || (n =? 5760) || ((8192 <=? n) && (n <=? 8202)) || (n =? 8232) || (n =? 8233)
   || (n =? 8239) || (n =? 8287) || (n =? 12288))%N.

Fixpoint drop_space (l : list N) : list N :=
  match l with
  | n :: l' => if is_space_cp n then drop_space l' else l
  | [] => []
  end.

Definition py_strip (s : string) : string :=
  encode_cps (List.rev (drop_space (List.rev (drop_space (str_cps s))))).

Definition newline : ascii := ascii_of_nat 10.

(** A Python dict has each key once; [wf] asks it at every level, with
    every string a [str]'s form. *)
Fixpoint nodup_keys (ks : list string) : bool :=
  match ks with
  | [] => true
  | k :: ks' => negb (existsb (String.eqb k) ks') && nodup_keys ks'
  end.

(** [json.loads] joins a [\ud8XX\udcXX] pair into one code point. *)
Fixpoint no_split_pair (l : list N) : bool :=
  match l with
  | a :: ((b :: _) as l') => negb (is_high a && is_low b) && no_split_pair l'
  | _ => true
  end.

(** A string that is the form of a [str] with no high surrogate directly
    followed by a low one. *)
Definition str_wf (s : string) : bool :=
  match decode_cps true s with Some l => no_split_pair l | None => false end.

Fixpoint wf (v : json) : bool :=
  match v with
  | JStr s => str_wf s
  | JList l => forallb wf l
  | JDict kvs => nodup_keys (map fst kvs) && forallb (fun '(k, x) => str_wf k && wf x) kvs
  | _ => true
  end.




(** ** Notions used by the proofs about the codec *)

(** What may follow a value inside an encoded message: the end of the
    text, an item separator, or a closing bracket. *)
Definition delim (r : string) : bool :=
  match r with
  | EmptyString => true
  | String c _ => ceq c "," || ceq c "]" || ceq c "}"
  end.

(** The characters an encoded value can start with. *)
Definition starts_value (c : ascii) : bool :=
  ceq c "n" || ceq c "t" || ceq c "f" || ceq c "-" || is_digit c
  || ceq c dq || ceq c "[" || ceq c "{".

(** Whether [s] starts with a [\uXXXX] escape that [scan_string] would
    join to a preceding high surrogate (or fail on). *)
Definition low_escape_at (s : string) : bool :=
  match s with
  | String b (String u (String k1 (String k2 (String k3 (String k4 _))))) =>
      ceq b bsl && ceq u "u" && match hex4 k1 k2 k3 k4 with Some c2 => is_low c2 | None => true end
  | _ => false
  end.

(** Recursion depth [parse_value] needs for a value. *)
Fixpoint need (v : json) : nat :=
  match v with
  | JList l => S (list_sum (map (fun x => S (need x)) l))
  | JDict kvs => S (list_sum (map (fun '(_, x) => S (need x)) kvs))
  | _ => 1
  end.

Fixpoint has_char (c : ascii) (s : string) : bool :=
  match s with
  | EmptyString => false
  | String d s' => ceq c d || has_char c s'
  end.

(** Induction over [json] through the nested lists. *)
Section JsonInd.
Variable P : json -> Prop.
Hypothesis HNull : P JNull.
Hypothesis HBool : forall b, P (JBool b).
Hypothesis HInt : forall z, P (JInt z).
Hypothesis HStr : forall s, P (JStr s).
Hypothesis HList : forall l, Forall P l -> P (JList l).
Hypothesis HDict : forall kvs, Forall (fun kv => P (snd kv)) kvs -> P (JDict kvs).

Fixpoint json_ind' (v : json) : P v :=
  match v with
  | JNull => HNull
  | JBool b => HBool b
  | JInt z => HInt z
  | JStr s => HStr s
  | JList l =>
      HList l ((fix go (l : list json) : Forall P l :=
                  match l with
                  | [] => Forall_nil _
                  | x :: xs => Forall_cons x (json_ind' x) (go xs)
                  end) l)
  | JDict kvs =>
      HDict kvs ((fix go (l : list (string * json)) : Forall (fun kv => P (snd kv)) l :=
                    match l with
                    | [] => Forall_nil _
                    | (k, x) :: l' => Forall_cons (k, x) (json_ind' x) (go l')
                    end) kvs)
  end.
End JsonInd.

End Json.

Module Bridge.
Import Json.

(** ** Exceptions raised along the paths of the bridge *)
Inductive exn : Type :=
| Exception (msg : string)   (** [raise Exception(msg)] *)
| SpawnError                 (** [create_subprocess_exec]: [OSError] *)
| WriteError                 (** [stdin.write]/[drain] on a closed pipe *)
| ReadError                  (** [stdout.readline]: [OSError] *)
| ValueError                 (** [stdout.readline]: a line over the stream limit *)
| UnicodeDecodeError         (** [.decode()] *)
| JSONDecodeError            (** [json.loads] *)
| TypeError
| AttributeError
| KeyError
| IndexError
| HTTPException (status_code : Z) (detail : json).

Inductive res (A : Type) : Type :=
| Ok (a : A)
| Err (e : exn).
Arguments Ok {A} a.
Arguments Err {A} e.

(** ** The child process and the client object *)

(** A child started by [create_subprocess_exec] with piped stdin/stdout:
    whether its stdin still accepts writes, whether reading its stdout
    fails, everything written to its stdin so far (one entry per
    [stdin.write]), and the bytes it writes to stdout (read in order). *)
Record proc : Type := mkProc {
  stdin_open : bool;
  read_ok : bool;
  stdin_log : list string;
  stdout_buf : string
}.

(** [MCPClient]: [self.process] and [self.connected]. *)
Record client : Type := mkClient {
  process : option proc;
  connected : bool
}.

Definition init_client : client := mkClient None false.

(** A coroutine of the client: it reads and updates the client object and
    returns a value or raises. *)
Definition M (A : Type) : Type := client -> res A * client.

Definition ret {A} (a : A) : M A := fun st => (Ok a, st).
Definition raise {A} (e : exn) : M A := fun st => (Err e, st).
Definition bind {A B} (c : M A) (k : A -> M B) : M B :=
  fun st => match c st with
            | (Ok a, st') => k a st'
            | (Err e, st') => (Err e, st')
            end.
(** [try: c except Exception as e: h(e)] *)
Definition catch {A} (c : M A) (h : exn -> M A) : M A :=
  fun st => match c st with
            | (Ok a, st') => (Ok a, st')
            | (Err e, st') => h e st'
            end.
Definition lift {A} (r : res A) : M A := fun st => (r, st).

Notation "x <- c ;; k" := (bind c (fun x => k)) (at level 61, c at next level, right associativity).

(** ** Python operations on JSON values *)

Fixpoint dict_lookup (d : list (string * json)) (k : string) : option json :=
  match d with
  | [] => None
  | (k', v) :: d' => if String.eqb k k' then Some v else dict_lookup d' k
  end.

(** [o.get(k, default)] *)
Definition py_get (o : json) (k : string) (default : json) : res json :=
  match o with
  | JDict d => match dict_lookup d k with Some v => Ok v | None => Ok default end
  | _ => Err AttributeError
  end.

(** [o[k]] with a string key *)
Definition py_getitem (o : json) (k : string) : res json :=
  match o with
  | JDict d => match dict_lookup d k with Some v => Ok v | None => Err KeyError end
  | _ => Err TypeError
  end.

Fixpoint contains_sub (k s : string) : bool :=
  match s with
  | EmptyString => String.prefix k EmptyString
  | String _ s' => String.prefix k s || contains_sub k s'
  end.

(** [k in o] with a string [k]: a dict's keys, a list's elements, a
    substring of a str; other values are not iterable. *)
Definition py_in (k : string) (o : json) : res bool :=
  match o with
  | JDict d => Ok (existsb (fun kv => String.eqb k (fst kv)) d)
  | JList l => Ok (existsb (fun x => match x with JStr s => String.eqb k s | _ => false end) l)
  | JStr s => Ok (contains_sub k s)
  | _ => Err TypeError
  end.

(** [bool(o)] *)
Definition truthy (o : json) : bool :=
  match o with
  | JNull => false
  | JBool b => b
  | JInt z => negb (Z.eqb z 0)
  | JStr s => negb (String.eqb s EmptyString)
  | JList l => match l with [] => false | _ => true end
  | JDict d => match d with [] => false | _ => true end
  end.

(** [list(o.keys())[0]] *)
Definition first_key (o : json) : res string :=
  match o with
  | JDict ((k, _) :: _) => Ok k
  | JDict [] => Err IndexError
  | _ => Err AttributeError
  end.

(** [[command] + args] *)
Definition list_plus (command args : json) : res (list json) :=
  match args with
  | JList l => Ok (command :: l)
  | _ => Err TypeError
  end.

(** ** [MCPClient.send_request] *)

(** Up to and including the next newline, or all of [buf]. *)
Fixpoint split_line (buf : string) : string * string :=
  match buf with
  | EmptyString => (EmptyString, EmptyString)
  | String c r =>
      if ceq c newline then (sing c, r)
      else let (l, r') := split_line r in (String c l, r')
  end.

(** The [limit] of the [StreamReader] of [create_subprocess_exec]: 2**16. *)
Definition stream_limit : N := 65536.

(** [await self.process.stdout.readline()] on the child's output [buf]
    (what the child writes until it exits or the line ends): the line
    through its newline, or what is left at end of stream ([b''] once it is
    empty).  [readuntil] raises [LimitOverrunError] when more than [limit]
    bytes come before the newline, and [readline] turns it into
    [ValueError] after dropping the line through its newline (all of the
    buffer when no newline comes).  [buf] is read as if already buffered:
    when the newline of an over-long line arrives only later, asyncio clears
    what it has and the tail of that line is the next line read. *)
Definition readline (buf : string) : res string * string :=
  let (l, rest) := split_line buf in
  if has_char newline l then
    if (stream_limit <? N.of_nat (String.length l) - 1)%N then (Err ValueError, rest)
    else (Ok l, rest)
  else if (stream_limit <? N.of_nat (String.length l))%N then (Err ValueError, EmptyString)
  else (Ok l, EmptyString).

Definition with_log (p : proc) (log : list string) : proc :=
  mkProc (stdin_open p) (read_ok p) log (stdout_buf p).
Definition with_buf (p : proc) (buf : string) : proc :=
  mkProc (stdin_open p) (read_ok p) (stdin_log p) buf.

(** The wire line of a request: [json.dumps(request) + '\n'], encoded;
    [dumps] only produces ASCII, so [.encode()] keeps it as it is. *)
Definition request_line (request : json) : string := dumps request ++ sing newline.

Definition send_request (request : json) : M json := fun st =>
  match process st with
  | None => (Err (Exception "MCP server not connected"), st)
  | Some p =>
      if negb (stdin_open p) then (Err WriteError, st)
      else
        let p1 := with_log p (stdin_log p ++ [request_line request])%list in
        let st1 := mkClient (Some p1) (connected st) in
        if negb (read_ok p1) then (Err ReadError, st1)
        else
          let (read, rest) := readline (stdout_buf p1) in
          let st2 := mkClient (Some (with_buf p1 rest)) (connected st) in
          match read with
          | Err e => (Err e, st2)
          | Ok response_line =>
              match utf8_decode response_line with
              | None => (Err UnicodeDecodeError, st2)
              | Some text =>
                  match loads (py_strip text) with
                  | Some response => (Ok response, st2)
                  | None => (Err JSONDecodeError, st2)
                  end
              end
          end
  end.

(** ** [MCPClient.connect] *)

Definition init_request : json :=
  JDict [("jsonrpc", JStr "2.0");
         ("id", JInt 1);
         ("method", JStr "initialize");
         ("params", JDict [
            ("protocolVersion", JStr "2024-11-05");
            ("capabilities", JDict [
               ("roots", JDict [("listChanged", JBool true)]);
               ("sampling", JDict [])]);
            ("clientInfo", JDict [
               ("name", JStr "fastapi-mcp-bridge");
               ("version", JStr "1.0.0")])])].

(** Lines 64-79 of [connect]: from [mcp_config.config] to [full_command]. *)
Definition server_command (config : json) : M (list json) :=
  server_config <- lift (py_get config "mcpServers" (JDict [])) ;;
  if negb (truthy server_config) then raise (Exception "No MCP server configuration found")
  else
    server_name <- lift (first_key server_config) ;;
    server_info <- lift (py_getitem server_config server_name) ;;
    command <- lift (py_get server_info "command" JNull) ;;
    args <- lift (py_get server_info "args" (JList [])) ;;
    if negb (truthy command) then raise (Exception "No command specified in MCP config")
    else lift (list_plus command args).

(** [connect]; [spawn] is [asyncio.create_subprocess_exec] on the command
    line ([None]: it raised).  The [except] clause only logs and re-raises. *)
Definition connect (config : json) (spawn : list json -> option proc) : M unit :=
  full_command <- server_command config ;;
  match spawn full_command with
  | None => raise SpawnError
  | Some p =>
      fun st =>
        let st1 := mkClient (Some p) (connected st) in
        (_ <- send_request init_request ;;
         fun st2 => (Ok tt, mkClient (process st2) true)) st1
  end.


(** ** The FastAPI endpoints *)

(** [MCPResponse]; [error] holds the exception whose [str()] it stores. *)
Record mcp_response : Type := mkResponse {
  success : bool;
  result : option json;
  error : option exn
}.

Definition list_tools_request : json :=
  JDict [("jsonrpc", JStr "2.0"); ("id", JInt 2); ("method", JStr "tools/list")].

Definition call_tool_request (tool_name : string) (parameters : list (string * json)) : json :=
  JDict [("jsonrpc", JStr "2.0"); ("id", JInt 3); ("method", JStr "tools/call");
         ("params", JDict [("name", JStr tool_name); ("arguments", JDict parameters)])].

(** [mcp_request.params or {}] *)
Definition mcp_request_request (method : string) (params : option (list (string * json))) : json :=
  let p := match params with
           | Some d => if truthy (JDict d) then JDict d else JDict []
           | None => JDict []
           end in
  JDict [("jsonrpc", JStr "2.0"); ("id", JInt 4); ("method", JStr method); ("params", p)].

(** The body shared by the three endpoints, after the request is built. *)
Definition handle_response (response : json) : M mcp_response :=
  has_error <- lift (py_in "error" response) ;;
  if has_error then
    detail <- lift (py_getitem response "error") ;;
    raise (HTTPException 500 detail)
  else
    r <- lift (py_get response "result" (JDict [])) ;;
    ret (mkResponse true (Some r) None).

Definition endpoint (request : json) : M mcp_response :=
  catch (response <- send_request request ;; handle_response response)
        (fun e => ret (mkResponse false None (Some e))).

Definition list_tools : M mcp_response := endpoint list_tools_request.
Definition call_tool (tool_name : string) (parameters : list (string * json)) : M mcp_response :=
  endpoint (call_tool_request tool_name parameters).
Definition send_mcp_request (method : string) (params : option (list (string * json))) : M mcp_response :=
  endpoint (mcp_request_request method params).

(** What FastAPI sends back: a returned model is HTTP 200; a raised
    [HTTPException] its status code; any other exception 500. *)
Definition serve {A} (h : M A) : M (Z * option A) := fun st =>
  match h st with
  | (Ok a, st') => (Ok (200%Z, Some a), st')
  | (Err (HTTPException code _), st') => (Ok (code, None), st')
  | (Err _, st') => (Ok (500%Z, None), st')
  end.

Record health : Type := mkHealth {
  status : string;
  mcp_connected : bool;
  config_loaded : bool
}.

Definition health_check (config : json) : M health := fun st =>
  (Ok (mkHealth "healthy" (connected st) (truthy config)), st).

(** The lines the client has written to its current child. *)
Definition written (st : client) : list string :=
  match process st with Some p => stdin_log p | None => [] end.

End Bridge.

Module Interleave.
Import Json Bridge.

(** Two endpoint handlers [TA] and [TB] run as asyncio tasks against the
    one child.  [send_request] takes no lock.  Its [write] + [drain] does
    not suspend while the pipe is not full, so the write is one step;
    [readline] is [StreamReader.readuntil]: it returns a complete line from
    the buffer at once, otherwise it registers as the stream's [_waiter]
    and suspends ([_wait_for_data] raises [RuntimeError] when another
    coroutine is already the waiter); [feed_data] clears [_waiter] and
    wakes it, and the woken task looks at the buffer again. *)
Inductive task : Type := TA | TB.

Inductive pc : Type :=
| ToWrite                  (** about to write its request line *)
| ToRead                   (** request written, about to call [readline] *)
| Waiting                  (** suspended in [readline] *)
| Returned (line : string) (** [readline] returned [line] *)
| Raised.                  (** [readline] raised ([RuntimeError], [ValueError]) *)

Record world : Type := mkWorld {
  pc_a : pc;
  pc_b : pc;
  req_a : string;            (** request line of [TA] *)
  req_b : string;            (** request line of [TB] *)
  to_child : list string;    (** lines the child has received and not answered yet *)
  buf : string;              (** the [StreamReader] buffer of the child's stdout *)
  waiter : option task       (** [StreamReader._waiter] *)
}.

Definition pc_of (t : task) (w : world) : pc :=
  match t with TA => pc_a w | TB => pc_b w end.

Definition req_of (t : task) (w : world) : string :=
  match t with TA => req_a w | TB => req_b w end.

Definition set_pc (t : task) (p : pc) (w : world) : world :=
  match t with
  | TA => mkWorld p (pc_b w) (req_a w) (req_b w) (to_child w) (buf w) (waiter w)
  | TB => mkWorld (pc_a w) p (req_a w) (req_b w) (to_child w) (buf w) (waiter w)
  end.

Definition set_io (q : list string) (b : string) (wt : option task) (w : world) : world :=
  mkWorld (pc_a w) (pc_b w) (req_a w) (req_b w) q b wt.

(** One pass of the [readuntil] loop of task [t]: a complete line, or
    more than [limit] bytes without one, ends the call ([ValueError] past
    the limit); otherwise the task waits for data. *)
Definition read_step (t : task) (w : world) : world :=
  if has_char newline (buf w) then
    match readline (buf w) with
    | (Ok l, rest) => set_pc t (Returned l) (set_io (to_child w) rest (waiter w) w)
    | (Err _, rest) => set_pc t Raised (set_io (to_child w) rest (waiter w) w)
    end
  else if (stream_limit <? N.of_nat (String.length (buf w)))%N then
    set_pc t Raised (set_io (to_child w) EmptyString (waiter w) w)
  else
    match waiter w with
    | Some _ => set_pc t Raised w
    | None => set_pc t Waiting (set_io (to_child w) (buf w) (Some t) w)
    end.

Section Steps.
(** The child: the line it writes for each request line it reads. *)
Variable answer : string -> string.

Inductive step : world -> world -> Prop :=
| step_write (t : task) (w : world) :
    pc_of t w = ToWrite ->
    step w (set_pc t ToRead (set_io (to_child w ++ [req_of t w])%list (buf w) (waiter w) w))
| step_read (t : task) (w : world) :
    pc_of t w = ToRead -> step w (read_step t w)
| step_resume (t : task) (w : world) :
    pc_of t w = Waiting -> waiter w <> Some t -> step w (read_step t w)
| step_child (q : string) (qs : list string) (w : world) :
    to_child w = q :: qs ->
    step w (set_io qs (buf w ++ answer q ++ sing newline) None w).

Inductive steps : world -> world -> Prop :=
| steps_refl (w : world) : steps w w
| steps_cons (w1 w2 w3 : world) : step w1 w2 -> steps w2 w3 -> steps w1 w3.
End Steps.

(** Both handlers have been entered, neither has written yet. *)
Definition start (ra rb : string) : world := mkWorld ToWrite ToWrite ra rb [] EmptyString None.

(** A fake server that answers every request with an empty result under
    the request's own id. *)
Definition echo_answer (q : string) : string :=
  match loads (py_strip q) with
  | Some (JDict d) =>
      dumps (JDict [("jsonrpc", JStr "2.0");
                    ("id", match dict_lookup d "id" with Some i => i | None => JNull end);
                    ("result", JDict [])])
  | _ => EmptyString
  end.

End Interleave.

Module Scenario.
Import Json Bridge.

(** A configuration with one server, as in [mcp_config.json]. *)
Definition demo_config : json :=
  JDict [("mcpServers", JDict [("echo-server",
           JDict [("command", JStr "echo-server"); ("args", JList [])])])].

Definition demo_command : list json := [JStr "echo-server"].

Definition resp_ok (id : Z) : json :=
  JDict [("jsonrpc", JStr "2.0"); ("id", JInt id); ("result", JDict [("tools", JList [])])].

Definition resp_err (id : Z) : json :=
  JDict [("jsonrpc", JStr "2.0"); ("id", JInt id);
         ("error", JDict [("code", JInt (-32601)); ("message", JStr "Method not found")])].

(** A child whose stdout will carry the given lines. *)
Definition child_with (out : list string) : proc :=
  mkProc true true [] (fold_right (fun l acc => l ++ sing newline ++ acc) EmptyString out).

Definition spawn_with (p : proc) (cmd : list json) : option proc := Some p.

(** The id field of a request line, as the child decodes it. *)
Definition request_id (line : string) : option json :=
  match loads (py_strip line) with
  | Some o => match py_get o "id" JNull with Ok v => Some v | Err _ => None end
  | None => None
  end.

(** A client connected to a child that will write [out]. *)
Definition connected_to (out : list string) : client := mkClient (Some (child_with out)) true.

End Scenario.

Module App.
Import Json Bridge.


(** [startup_event]: [connect()], any exception logged and dropped. *)
Definition startup_event (config : json) (spawn : list json -> option proc) : M unit :=
  catch (connect config spawn) (fun _ => ret tt).


(** [GET /] *)
Definition root : M json := fun st =>
  (Ok (JDict [("message", JStr "MCP Bridge API is running"); ("connected", JBool (connected st))]), st).

(** Every character of [s] satisfies [p]. *)
Fixpoint all_chars_in (p : ascii -> bool) (s : string) : bool :=
  match s with
  | EmptyString => true
  | String c s' => p c && all_chars_in p s'
  end.

Definition is_ascii_char (c : ascii) : bool := (N_of_ascii c <? 128)%N.

Definition is_printable (c : ascii) : bool := ((32 <=? N_of_ascii c) && (N_of_ascii c <=? 126))%N.

(** What may follow an encoded value for the decoder to stop right after
    it: what [delim] allows, or JSON whitespace. *)
Definition ends_value (r : string) : bool :=
  delim r || match r with String c _ => is_json_ws c | EmptyString => false end.

End App.

Module JsonFacts.
Import Json App.

Lemma sapp_assoc (a b c : string) : (a ++ b) ++ c = a ++ (b ++ c).
Proof. induction a; simpl; congruence. Qed.

Lemma sapp_nil_r (a : string) : a ++ EmptyString = a.
Proof. induction a; simpl; congruence. Qed.

Lemma slen_app (a b : string) : String.length (a ++ b) = String.length a + String.length b.
Proof. induction a; simpl; auto. Qed.

Lemma has_char_cons (c d : ascii) (s : string) :
  has_char c (String d s) = ceq c d || has_char c s.
Proof. reflexivity. Qed.

Lemma has_char_app (c : ascii) (a b : string) :
  has_char c (a ++ b) = has_char c a || has_char c b.
Proof. induction a; simpl; [reflexivity | rewrite IHa, orb_assoc; reflexivity]. Qed.

Lemma all_chars_in_app (p : ascii -> bool) (a b : string) :
  all_chars_in p (a ++ b) = all_chars_in p a && all_chars_in p b.
Proof. induction a as [|c a IH]; simpl; [reflexivity|]. rewrite IH, andb_assoc; reflexivity. Qed.


Lemma all_chars_no_char (p : ascii -> bool) (c : ascii) (s : string) :
  p c = false -> all_chars_in p s = true -> has_char c s = false.
Proof.
  intros Hc. induction s as [|d s IH]; simpl; [reflexivity|].
  intros H; apply andb_prop in H as [H1 H2]. rewrite (IH H2), orb_false_r.
  destruct (ceq c d) eqn:E; [|reflexivity]. apply Ascii.eqb_eq in E. subst. congruence.
Qed.

Ltac all_chars c := destruct c as [[] [] [] [] [] [] [] []].
Ltac nlia := zify; Z.to_euclidean_division_equations; lia.

(** ** UTF-8 forms *)

Lemma Nab (x : N) : (x < 256)%N -> N_of_ascii (ascii_of_N x) = x.
Proof. apply N_ascii_embedding. Qed.

Lemma ltb_t (a b : N) : (a < b)%N -> (a <? b)%N = true.
Proof. apply N.ltb_lt. Qed.

Lemma ltb_f (a b : N) : (b <= a)%N -> (a <? b)%N = false.
Proof. apply N.ltb_ge. Qed.

Lemma utf8_decode_cp (sg : bool) (n : N) (rest : string) :
  cp_ok sg n = true -> decode_cps sg (utf8_cp n ++ rest) = cons_cp n (decode_cps sg rest).
Proof.
  intros Hok. pose proof Hok as H. unfold cp_ok in H. apply andb_prop in H as [H _]. apply N.leb_le in H.
  pose proof (eq_refl (utf8_cp n)) as Hu. unfold utf8_cp at 2 in Hu.
  destruct (N.ltb_spec n 128).
  - rewrite Hu. simpl. rewrite Nab by lia. rewrite ltb_t by lia. reflexivity.
  - destruct (N.ltb_spec n 2048).
    + rewrite Hu at 1. cbn [append decode_cps sing]. unfold cont_val. rewrite !Nab by nlia.
      rewrite (ltb_f (192 + n / 64)) by nlia. rewrite (ltb_t (192 + n / 64)) by nlia.
      replace ((192 + n / 64 - 192) * 64 + (128 + n mod 64 - 128))%N with n by nlia.
      rewrite Hok, Hu, String.eqb_refl. reflexivity.
    + destruct (N.ltb_spec n 65536).
      * rewrite Hu at 1. cbn [append decode_cps sing]. unfold cont_val. rewrite !Nab by nlia.
        rewrite (ltb_f (224 + n / 4096) 128) by nlia.
        rewrite (ltb_f (224 + n / 4096) 224) by nlia.
        rewrite (ltb_t (224 + n / 4096) 240) by nlia.
        replace ((224 + n / 4096 - 224) * 4096 + (128 + n / 64 mod 64 - 128) * 64
                 + (128 + n mod 64 - 128))%N with n by nlia.
        rewrite Hok, Hu, String.eqb_refl. reflexivity.
      * rewrite Hu at 1. cbn [append decode_cps sing]. unfold cont_val. rewrite !Nab by nlia.
        rewrite (ltb_f (240 + n / 262144) 128) by nlia.
        rewrite (ltb_f (240 + n / 262144) 224) by nlia.
        rewrite (ltb_f (240 + n / 262144) 240) by nlia.
        replace ((240 + n / 262144 - 240) * 262144 + (128 + n / 4096 mod 64 - 128) * 4096
                 + (128 + n / 64 mod 64 - 128) * 64 + (128 + n mod 64 - 128))%N with n by nlia.
        rewrite Hok, Hu, String.eqb_refl. reflexivity.
Qed.

Lemma decode_app (sg : bool) (l : list N) (rest : string) :
  forallb (cp_ok sg) l = true ->
  decode_cps sg (encode_cps l ++ rest) = option_map (fun m => l ++ m)%list (decode_cps sg rest).
Proof.
  induction l as [|n l IH]; simpl; intros H.
  - destruct (decode_cps sg rest); reflexivity.
  - apply andb_prop in H as [H1 H2]. fold (encode_cps l).
    rewrite sapp_assoc, utf8_decode_cp by exact H1. rewrite IH by exact H2.
    destruct (decode_cps sg rest); reflexivity.
Qed.

Lemma decode_encode_cps (sg : bool) (l : list N) :
  forallb (cp_ok sg) l = true -> decode_cps sg (encode_cps l) = Some l.
Proof.
  intros H. rewrite <- (sapp_nil_r (encode_cps l)), decode_app by exact H.
  simpl. rewrite List.app_nil_r. reflexivity.
Qed.

Lemma cp_ok_small (sg : bool) (n : N) : (n < 128)%N -> cp_ok sg n = true.
Proof.
  intros H. unfold cp_ok, is_surrogate.
  rewrite (proj2 (N.leb_le n 1114111)) by lia. rewrite (proj2 (N.leb_gt 55296 n)) by lia.
  destruct sg; reflexivity.
Qed.

Lemma utf8_small (n : N) : (n < 128)%N -> utf8_cp n = sing (ascii_of_N n).
Proof. intros H. unfold utf8_cp. rewrite ltb_t by exact H. reflexivity. Qed.

Lemma decode_encode (sg : bool) (s : string) (cps : list N) :
  decode_cps sg s = Some cps -> encode_cps cps = s /\ forallb (cp_ok sg) cps = true.
Proof.
  revert cps.
  remember (String.length s) as k eqn:Hk. assert (Hle : String.length s <= k) by lia. clear Hk.
  revert s Hle. induction k as [k IH] using lt_wf_ind. intros s Hle cps.
  destruct s as [|c1 s1]; simpl.
  - intros E; injection E as <-. split; reflexivity.
  - simpl in Hle.
    assert (Step : forall (n : N) (pre rest : string), String.length rest < k ->
              cp_ok sg n && String.eqb (utf8_cp n) pre = true ->
              cons_cp n (decode_cps sg rest) = Some cps ->
              encode_cps cps = pre ++ rest /\ forallb (cp_ok sg) cps = true).
    { intros n pre rest Hr Hc D. apply andb_prop in Hc as [Hc1 Hc2]. apply String.eqb_eq in Hc2.
      destruct (decode_cps sg rest) as [l|] eqn:Dr; simpl in D; [|discriminate].
      injection D as <-. destruct (IH (String.length rest) Hr rest (le_n _) l Dr) as [I1 I2].
      simpl. fold (encode_cps l). rewrite I1, I2, Hc1, Hc2. split; reflexivity. }
    destruct (N_of_ascii c1 <? 128)%N eqn:E1.
    + intros D. apply N.ltb_lt in E1.
      apply (Step (N_of_ascii c1) (sing c1) s1); [lia| |exact D].
      rewrite cp_ok_small by exact E1. rewrite utf8_small by exact E1.
      rewrite ascii_N_embedding. apply String.eqb_refl.
    + destruct (N_of_ascii c1 <? 224)%N.
      { destruct s1 as [|c2 s2]; [discriminate|]. simpl in Hle.
        match goal with |- context [if ?b then _ else _] => destruct b eqn:Hb end; [|discriminate].
        intros D. apply (Step _ _ s2 ltac:(lia) Hb D). }
      destruct (N_of_ascii c1 <? 240)%N.
      { destruct s1 as [|c2 [|c3 s3]]; try discriminate. simpl in Hle.
        match goal with |- context [if ?b then _ else _] => destruct b eqn:Hb end; [|discriminate].
        intros D. apply (Step _ _ s3 ltac:(lia) Hb D). }
      destruct s1 as [|c2 [|c3 [|c4 s4]]]; try discriminate. simpl in Hle.
      match goal with |- context [if ?b then _ else _] => destruct b eqn:Hb end; [|discriminate].
      intros D. apply (Step _ _ s4 ltac:(lia) Hb D).
Qed.




Lemma ascii_cp_ok (sg : bool) (s : string) :
  all_chars_in is_ascii_char s = true -> forallb (cp_ok sg) (bytes_cps s) = true.
Proof.
  induction s as [|c s IH]; simpl; intros H; [reflexivity|].
  apply andb_prop in H as [H1 H2]. apply N.ltb_lt in H1. rewrite cp_ok_small, IH by assumption.
  reflexivity.
Qed.

(** ** Scanning what [quote] writes *)

Lemma hex_digit_val (d : N) : (d < 16)%N -> hex_val (hex_digit d) = Some d.
Proof.
  intros H.
  assert (d = 0 \/ d = 1 \/ d = 2 \/ d = 3 \/ d = 4 \/ d = 5 \/ d = 6 \/ d = 7 \/ d = 8 \/ d = 9
          \/ d = 10 \/ d = 11 \/ d = 12 \/ d = 13 \/ d = 14 \/ d = 15)%N as Hd by lia.
  repeat destruct Hd as [-> | Hd]; try reflexivity; subst; reflexivity.
Qed.

Lemma hex4_u_escape (m : N) : (m < 65536)%N ->
  hex4 (hex_digit (m / 4096 mod 16)) (hex_digit (m / 256 mod 16)) (hex_digit (m / 16 mod 16))
       (hex_digit (m mod 16)) = Some m.
Proof. intros H. unfold hex4. rewrite !hex_digit_val by nlia. f_equal. nlia. Qed.

Lemma low_escape_at_cons (c : ascii) (t : string) :
  ceq c bsl = false -> low_escape_at (String c t) = false.
Proof.
  intros H. destruct t as [|? [|? [|? [|? [|? ?]]]]]; cbn [low_escape_at]; try reflexivity.
  rewrite H. reflexivity.
Qed.

Lemma low_escape_at_esc (e : ascii) (t : string) :
  ceq e "u" = false -> low_escape_at (String bsl (String e t)) = false.
Proof.
  intros H. destruct t as [|? [|? [|? [|? ?]]]]; cbn [low_escape_at]; try reflexivity.
  rewrite H, andb_false_r. reflexivity.
Qed.

Lemma low_escape_u (m : N) (t : string) :
  (m < 65536)%N -> low_escape_at (u_escape m ++ t) = is_low m.
Proof.
  intros H. unfold u_escape. cbn [append sing low_escape_at]. rewrite hex4_u_escape by exact H.
  reflexivity.
Qed.

Lemma escape_char_shape (c : ascii) : (N_of_ascii c < 128)%N ->
  (exists d, escape_char c = sing d /\ ceq d bsl = false) \/
  (exists e, escape_char c = String bsl (sing e) /\ ceq e "u" = false) \/
  escape_char c = u_escape (N_of_ascii c).
Proof.
  all_chars c; intros H; vm_compute in H; try discriminate H;
  first [left; eexists; split; reflexivity
        | right; left; eexists; split; reflexivity
        | right; right; reflexivity].
Qed.

Lemma scan_escape_char (c : ascii) (t : string) : (N_of_ascii c < 128)%N ->
  scan_string (escape_char c ++ t) = cons_res (sing c) (scan_string t).
Proof. all_chars c; intros H; vm_compute in H; try discriminate H; reflexivity. Qed.

Lemma scan_u_single (h1 h2 h3 h4 : ascii) (code : N) (s3 : string) :
  hex4 h1 h2 h3 h4 = Some code -> is_high code = false \/ low_escape_at s3 = false ->
  scan_string (String bsl (String "u" (String h1 (String h2 (String h3 (String h4 s3))))))
  = cons_res (utf8_cp code) (scan_string s3).
Proof.
  intros Hx Hl. cbn [scan_string]. change (ceq bsl dq) with false. change (ceq bsl bsl) with true.
  change (ceq "u" "u") with true. cbn iota. rewrite Hx.
  destruct (is_high code) eqn:Hh; [|reflexivity].
  destruct Hl as [Hl|Hl]; [discriminate|].
  destruct s3 as [|b [|u [|k1 [|k2 [|k3 [|k4 s4]]]]]]; try reflexivity.
  cbn [low_escape_at] in Hl.
  destruct (ceq b bsl && ceq u "u"); [|reflexivity]. simpl in Hl.
  destruct (hex4 k1 k2 k3 k4) as [c2|]; [|discriminate]. rewrite Hl. reflexivity.
Qed.

Lemma scan_u_pair (h1 h2 h3 h4 k1 k2 k3 k4 : ascii) (hi lo : N) (s4 : string) :
  hex4 h1 h2 h3 h4 = Some hi -> is_high hi = true -> hex4 k1 k2 k3 k4 = Some lo -> is_low lo = true ->
  scan_string (String bsl (String "u" (String h1 (String h2 (String h3 (String h4
    (String bsl (String "u" (String k1 (String k2 (String k3 (String k4 s4))))))))))))
  = cons_res (utf8_cp (join_surrogates hi lo)) (scan_string s4).
Proof.
  intros H1 H2 H3 H4. cbn [scan_string]. change (ceq bsl dq) with false. change (ceq bsl bsl) with true.
  change (ceq "u" "u") with true. cbn iota. rewrite H1, H2. cbn [andb]. rewrite H3, H4. reflexivity.
Qed.

Lemma cp_ok_le (sg : bool) (n : N) : cp_ok sg n = true -> (n <= 1114111)%N.
Proof. unfold cp_ok. intros H. apply andb_prop in H as [H _]. apply N.leb_le. exact H. Qed.

Lemma low_escape_cp (m : N) (t : string) :
  (m <= 1114111)%N -> is_low m = false -> low_escape_at (escape_cp m ++ t) = false.
Proof.
  intros Hm Hl. unfold escape_cp.
  destruct (N.ltb_spec m 128).
  - assert (Hc : (N_of_ascii (ascii_of_N m) < 128)%N) by (rewrite Nab; lia).
    destruct (escape_char_shape _ Hc) as [[d [E D]]|[[e [E D]]|E]]; rewrite E.
    + apply low_escape_at_cons. exact D.
    + apply low_escape_at_esc. exact D.
    + rewrite low_escape_u by lia. rewrite Nab by lia. exact Hl.
  - destruct (N.ltb_spec m 65536).
    + rewrite low_escape_u by lia. exact Hl.
    + rewrite sapp_assoc, low_escape_u by nlia. unfold is_low.
      rewrite (proj2 (N.leb_gt 56320 _)) by nlia. reflexivity.
Qed.

Lemma low_escape_next (l : list N) (r : string) :
  forallb (cp_ok true) l = true ->
  match l with m :: _ => is_low m = false | [] => True end ->
  low_escape_at (escape_cps l ++ String dq r) = false.
Proof.
  destruct l as [|m l]; intros Hok Hm.
  - apply low_escape_at_cons. reflexivity.
  - simpl in Hok. apply andb_prop in Hok as [Hm1 _]. apply cp_ok_le in Hm1.
    cbn [escape_cps]. rewrite sapp_assoc. apply low_escape_cp; assumption.
Qed.

Lemma scan_escape_cps (cps : list N) (r : string) :
  forallb (cp_ok true) cps = true -> no_split_pair cps = true ->
  scan_string (escape_cps cps ++ String dq r) = Some (encode_cps cps, r).
Proof.
  induction cps as [|n l IH]; intros Hok Hp.
  - reflexivity.
  - simpl in Hok. apply andb_prop in Hok as [Hn Hl]. apply cp_ok_le in Hn.
    assert (Hp' : no_split_pair l = true).
    { destruct l; [reflexivity|]. simpl in Hp. apply andb_prop in Hp as [_ Hp]. exact Hp. }
    assert (Next : is_high n = true -> low_escape_at (escape_cps l ++ String dq r) = false).
    { intros Hh. apply low_escape_next; [exact Hl|]. destruct l as [|m l']; [exact I|].
      simpl in Hp. rewrite Hh in Hp. destruct (is_low m); [discriminate|reflexivity]. }
    cbn [escape_cps encode_cps fold_right]. fold (encode_cps l). rewrite sapp_assoc.
    unfold escape_cp. destruct (N.ltb_spec n 128).
    + rewrite scan_escape_char by (rewrite Nab; lia). rewrite IH by assumption.
      rewrite utf8_small by exact H. reflexivity.
    + destruct (N.ltb_spec n 65536).
      * unfold u_escape at 1. cbn [append sing].
        rewrite (scan_u_single _ _ _ _ n); [| apply hex4_u_escape; exact H0 |].
        -- rewrite IH by assumption. reflexivity.
        -- destruct (is_high n) eqn:Hh; [right; apply Next; reflexivity | left; reflexivity].
      * rewrite sapp_assoc. unfold u_escape at 1 2. cbn [append sing].
        rewrite (scan_u_pair _ _ _ _ _ _ _ _ (55296 + (n - 65536) / 1024) (56320 + (n - 65536) mod 1024)).
        -- rewrite IH by assumption. cbn [cons_res].
           replace (join_surrogates _ _) with n by (unfold join_surrogates; nlia). reflexivity.
        -- apply hex4_u_escape. nlia.
        -- unfold is_high. rewrite (proj2 (N.leb_le 55296 _)) by nlia. apply N.leb_le. nlia.
        -- apply hex4_u_escape. nlia.
        -- unfold is_low. rewrite (proj2 (N.leb_le 56320 _)) by nlia. apply N.leb_le. nlia.
Qed.

Lemma scan_quoted (s r : string) :
  str_wf s = true -> scan_string (escape_cps (str_cps s) ++ String dq r) = Some (s, r).
Proof.
  unfold str_wf, str_cps. destruct (decode_cps true s) as [l|] eqn:D; [|discriminate].
  intros Hp. destruct (decode_encode _ _ _ D) as [E Hok].
  rewrite scan_escape_cps by assumption. rewrite E. reflexivity.
Qed.

(** ** Numbers *)

Lemma ends_float (r : string) : ends_value r = true -> float_follows r = false.
Proof.
  destruct r as [|c t]; [reflexivity|]. unfold ends_value.
  all_chars c; intros H; vm_compute in H; try discriminate H; reflexivity.
Qed.

Lemma ends_take (r : string) : ends_value r = true -> take_digits r = (Nil, r).
Proof.
  destruct r as [|c t]; [reflexivity|]. unfold ends_value.
  all_chars c; intros H; vm_compute in H; try discriminate H; reflexivity.
Qed.

Lemma delim_ends (r : string) : delim r = true -> ends_value r = true.
Proof. unfold ends_value; intros ->; reflexivity. Qed.

Lemma take_digits_uint (u : uint) (r : string) :
  ends_value r = true -> take_digits (uint_to_string u ++ r) = (u, r).
Proof.
  intros Hr. induction u; simpl; try (rewrite IHu; reflexivity).
  apply ends_take; exact Hr.
Qed.

(** The decimal form of a positive number has no leading zero. *)
Lemma to_uint_lead (p : positive) :
  match Pos.to_uint p with Nil | D0 _ => False | _ => True end.
Proof.
  assert (Hn := DecimalPos.Unsigned.to_uint_nonzero p).
  assert (Hu : unorm (Pos.to_uint p) = Pos.to_uint p).
  { rewrite <- DecimalPos.Unsigned.to_of, DecimalPos.Unsigned.of_to. reflexivity. }
  destruct (Pos.to_uint p) as [|u|u|u|u|u|u|u|u|u|u] eqn:E; try exact I.
  - exact (DecimalPos.Unsigned.to_uint_nonnil p E).
  - rewrite unorm_D0 in Hu.
    destruct u as [|u'|u'|u'|u'|u'|u'|u'|u'|u'|u'];
      [apply Hn; reflexivity
      | match type of Hu with
        | unorm ?w = _ => assert (Hle := nb_digits_unorm w ltac:(discriminate))
        end;
        rewrite Hu in Hle; simpl in Hle; lia ..].
Qed.

Lemma parse_int (z : Z) (r : string) :
  ends_value r = true -> parse_number (int_repr z ++ r) = Some (z, r).
Proof.
  intros Hr. destruct z as [|p|p].
  - simpl. unfold parse_number. simpl. rewrite ends_float by exact Hr. reflexivity.
  - pose proof (to_uint_lead p) as Hl. pose proof (DecimalZ.of_to (Zpos p)) as Hz.
    unfold int_repr. simpl Z.to_int in *. revert Hl Hz.
    destruct (Pos.to_uint p); intros Hl Hz; try contradiction;
      unfold parse_number; simpl; rewrite take_digits_uint by exact Hr; simpl;
      rewrite ends_float by exact Hr; simpl in Hz; rewrite Hz; reflexivity.
  - pose proof (to_uint_lead p) as Hl. pose proof (DecimalZ.of_to (Zneg p)) as Hz.
    unfold int_repr. simpl Z.to_int in *. revert Hl Hz.
    destruct (Pos.to_uint p); intros Hl Hz; try contradiction;
      unfold parse_number; simpl; rewrite take_digits_uint by exact Hr; simpl;
      rewrite ends_float by exact Hr; simpl in Hz; rewrite Hz; reflexivity.
Qed.

(** ** The shape of [dumps] *)

Lemma starts_value_facts (c : ascii) :
  starts_value c = true ->
  is_json_ws c = false /\ is_space_cp (N_of_ascii c) = false /\ ceq c "]" = false /\ ceq c "}" = false.
Proof. all_chars c; simpl; try discriminate; repeat split. Qed.

Lemma dumps_list_cons (x : json) (xs : list json) :
  dumps (JList (x :: xs)) = String "[" (dumps x ++ dumps_items xs).
Proof. reflexivity. Qed.

Lemma dumps_dict_cons (k : string) (x : json) (kvs : list (string * json)) :
  dumps (JDict ((k, x) :: kvs)) = String "{" (quote k ++ ": " ++ dumps x ++ dumps_members kvs).
Proof. reflexivity. Qed.

Lemma int_repr_head (z : Z) :
  exists c t, int_repr z = String c t /\ (ceq c "-" || is_digit c) = true.
Proof.
  destruct z as [|p|p]; unfold int_repr; simpl.
  - eexists; eexists; split; reflexivity.
  - pose proof (DecimalPos.Unsigned.to_uint_nonnil p) as Hn.
    destruct (Pos.to_uint p); [contradiction|..]; eexists; eexists; split; reflexivity.
  - eexists; eexists; split; reflexivity.
Qed.




Lemma dumps_head (v : json) :
  exists c t, dumps v = String c t /\ starts_value c = true.
Proof.
  destruct v as [| [] | z | s | [|x xs] | [|[k x] kvs]];
    try (eexists; eexists; split; reflexivity).
  - destruct (int_repr_head z) as (c & t & E & Hc). exists c, t. split; [exact E|].
    unfold starts_value. revert Hc. all_chars c; vm_compute; intros; congruence.
Qed.

Lemma skip_ws_dumps (v : json) (r : string) : skip_ws (dumps v ++ r) = dumps v ++ r.
Proof.
  destruct (dumps_head v) as (c & t & E & Hc). rewrite E. simpl.
  destruct (starts_value_facts c Hc) as (H & _). rewrite H. reflexivity.
Qed.

Lemma parse_value_number (f : nat) (c : ascii) (t : string) :
  (ceq c "-" || is_digit c) = true ->
  parse_value (S f) (String c t) =
  match parse_number (String c t) with Some (z, r) => Some (JInt z, r) | None => None end.
Proof. intros H; all_chars c; vm_compute in H; try discriminate H; reflexivity. Qed.

Lemma parse_value_list_step (f : nat) (x : json) (rest : string) :
  parse_value (S f) (String "[" (dumps x ++ rest)) =
  match parse_items f (dumps x ++ rest) with Some (vs, r) => Some (JList vs, r) | None => None end.
Proof.
  destruct (dumps_head x) as (c & t & E & Hc). rewrite E. simpl.
  destruct (starts_value_facts c Hc) as (H1 & _ & H2 & _). rewrite H1. simpl. rewrite H2. reflexivity.
Qed.

Lemma parse_value_dict_step (f : nat) (k : string) (rest : string) :
  parse_value (S f) (String "{" (quote k ++ rest)) = parse_members f [] (quote k ++ rest).
Proof. reflexivity. Qed.

Lemma delim_items (xs : list json) (r : string) : delim (dumps_items xs ++ r) = true.
Proof. destruct xs; reflexivity. Qed.

Lemma delim_members (kvs : list (string * json)) (r : string) : delim (dumps_members kvs ++ r) = true.
Proof. destruct kvs as [|[]]; reflexivity. Qed.

Lemma nodup_keys_app_fresh (l1 l2 : list string) (k : string) :
  nodup_keys (l1 ++ k :: l2)%list = true -> existsb (String.eqb k) l1 = false.
Proof.
  induction l1 as [|a l1 IH]; simpl; [reflexivity|].
  intros H. apply andb_prop in H as [H1 H2].
  rewrite (IH H2), orb_false_r.
  apply negb_true_iff in H1. rewrite existsb_app in H1. simpl in H1.
  apply orb_false_iff in H1 as [_ H1]. apply orb_false_iff in H1 as [H1 _].
  rewrite String.eqb_sym. exact H1.
Qed.

Lemma dict_set_fresh (acc : list (string * json)) (k : string) (x : json) :
  existsb (String.eqb k) (map fst acc) = false -> dict_set acc k x = (acc ++ [(k, x)])%list.
Proof.
  induction acc as [|[k' v'] acc IH]; simpl; [reflexivity|].
  intros H. apply orb_false_iff in H as [H1 H2]. rewrite H1, (IH H2). reflexivity.
Qed.

(** ** Decoding what [dumps] writes *)

Lemma parse_dumps (n : nat) :
  (forall v r, wf v = true -> need v <= n -> ends_value r = true ->
     parse_value n (dumps v ++ r) = Some (v, r)) /\
  (forall x xs r, forallb wf (x :: xs) = true ->
     list_sum (map (fun y => S (need y)) (x :: xs)) <= n -> ends_value r = true ->
     parse_items n (dumps x ++ dumps_items xs ++ r) = Some (x :: xs, r)) /\
  (forall acc k x kvs r,
     nodup_keys (map fst (acc ++ (k, x) :: kvs)%list) = true ->
     forallb (fun '(k', y) => str_wf k' && wf y) ((k, x) :: kvs) = true ->
     list_sum (map (fun '(_, y) => S (need y)) ((k, x) :: kvs)) <= n -> ends_value r = true ->
     parse_members n acc (quote k ++ ": " ++ dumps x ++ dumps_members kvs ++ r)
       = Some (JDict (acc ++ (k, x) :: kvs)%list, r)).
Proof.
  induction n as [|f IH].
  { split; [|split].
    - intros v r _ H _. destruct v; simpl in H; lia.
    - intros x xs r _ H _. simpl in H. lia.
    - intros acc k x kvs r _ _ H _. simpl in H. lia. }
  destruct IH as (IHv & IHi & IHm).
  split; [|split].
  - intros v r Hwf Hn Hr.
    destruct v as [| b | z | s | [|x xs] | [|[k x] kvs]].
    + reflexivity.
    + destruct b; reflexivity.
    + destruct (int_repr_head z) as (c & t & E & Hc).
      cbn [dumps]. rewrite E.
      change (String c t ++ r) with (String c (t ++ r)).
      rewrite parse_value_number by exact Hc.
      change (String c (t ++ r)) with (String c t ++ r).
      rewrite <- E, parse_int by exact Hr. reflexivity.
    + cbn [dumps quote append parse_value]. cbn.
      rewrite sapp_assoc. cbn [append sing]. rewrite scan_quoted by exact Hwf. reflexivity.
    + reflexivity.
    + rewrite dumps_list_cons.
      change (String "[" (dumps x ++ dumps_items xs) ++ r)
        with (String "[" ((dumps x ++ dumps_items xs) ++ r)).
      rewrite sapp_assoc, parse_value_list_step, IHi; [reflexivity | exact Hwf | | exact Hr].
      simpl in Hn |- *. lia.
    + reflexivity.
    + rewrite dumps_dict_cons.
      change (String "{" (quote k ++ ": " ++ dumps x ++ dumps_members kvs) ++ r)
        with (String "{" ((quote k ++ ": " ++ dumps x ++ dumps_members kvs) ++ r)).
      rewrite !sapp_assoc, parse_value_dict_step.
      cbn [wf] in Hwf. apply andb_prop in Hwf as [Hnd Hw].
      rewrite IHm; [reflexivity | exact Hnd | exact Hw | | exact Hr].
      simpl in Hn |- *. lia.
  - intros x xs r Hwf Hn Hr.
    simpl in Hwf. apply andb_prop in Hwf as [Hx Hxs].
    cbn [parse_items].
    rewrite IHv; [| exact Hx | simpl in Hn; lia | apply delim_ends, delim_items].
    destruct xs as [|y ys].
    + reflexivity.
    + cbn [dumps_items append skip_ws is_json_ws].
      rewrite !sapp_assoc.
      cbn. rewrite skip_ws_dumps, IHi; [reflexivity | exact Hxs | simpl in Hn |- *; lia | exact Hr].
  - intros acc k x kvs r Hnd Hwf Hn Hr.
    simpl in Hwf. apply andb_prop in Hwf as [Hkx Hkvs]. apply andb_prop in Hkx as [Hk Hx].
    unfold quote at 1. cbn [parse_members append].
    rewrite sapp_assoc. cbn [append sing]. cbn. rewrite scan_quoted by exact Hk. cbn.
    rewrite skip_ws_dumps, IHv; [| exact Hx | simpl in Hn; lia | apply delim_ends, delim_members].
    rewrite map_app in Hnd. simpl in Hnd.
    rewrite (dict_set_fresh _ _ _ (nodup_keys_app_fresh _ _ _ Hnd)).
    destruct kvs as [|[k' y] kvs'].
    + reflexivity.
    + cbn [dumps_members append skip_ws is_json_ws].
      rewrite !sapp_assoc. cbn. rewrite (sapp_assoc (dumps y)).
      assert (Hm := IHm (acc ++ [(k, x)])%list k' y kvs' r).
      rewrite <- app_assoc in Hm. apply Hm; [| exact Hkvs | simpl in Hn |- *; lia | exact Hr].
      rewrite map_app. exact Hnd.
Qed.

Lemma need_le_items (xs : list json) :
  Forall (fun y => need y <= String.length (dumps y)) xs ->
  S (list_sum (map (fun y => S (need y)) xs)) <= String.length (dumps_items xs).
Proof.
  induction 1 as [|x l Hx _ IH]; simpl; [lia|].
  rewrite slen_app. lia.
Qed.

Lemma need_le_members (kvs : list (string * json)) :
  Forall (fun kv => need (snd kv) <= String.length (dumps (snd kv))) kvs ->
  S (list_sum (map (fun '(_, y) => S (need y)) kvs)) <= String.length (dumps_members kvs).
Proof.
  induction 1 as [|[k x] l Hx _ IH]; simpl in *; [lia|].
  rewrite !slen_app. simpl. rewrite slen_app. lia.
Qed.

Lemma need_le_length (v : json) : need v <= String.length (dumps v).
Proof.
  induction v as [| b | z | s | l IH | kvs IH] using json_ind'.
  - simpl; lia.
  - destruct b; simpl; lia.
  - destruct (int_repr_head z) as (c & t & E & _). simpl. rewrite E. simpl. lia.
  - simpl. lia.
  - destruct l as [|x xs]; [simpl; lia|].
    inversion IH as [|? ? Hx Hxs]; subst.
    rewrite dumps_list_cons. simpl String.length. rewrite slen_app.
    pose proof (need_le_items xs Hxs). simpl. lia.
  - destruct kvs as [|[k x] kvs]; [simpl; lia|].
    inversion IH as [|? ? Hx Hkvs]; subst. simpl in Hx.
    rewrite dumps_dict_cons. simpl String.length. rewrite !slen_app.
    pose proof (need_le_members kvs Hkvs). simpl. rewrite slen_app. lia.
Qed.

Lemma skip_ws_app_ws (w s : string) :
  all_chars_in is_json_ws w = true -> skip_ws (w ++ s) = skip_ws s.
Proof.
  induction w as [|c w IH]; simpl; [reflexivity|].
  intros H; apply andb_prop in H as [Hc Hw]; rewrite Hc; apply IH, Hw.
Qed.

Lemma skip_ws_all (w : string) : all_chars_in is_json_ws w = true -> skip_ws w = EmptyString.
Proof. intros H; rewrite <- (sapp_nil_r w), skip_ws_app_ws by exact H; reflexivity. Qed.

Lemma ends_ws (w : string) : all_chars_in is_json_ws w = true -> ends_value w = true.
Proof.
  destruct w as [|c w]; [reflexivity|]. simpl; intros H; apply andb_prop in H as [Hc _].
  unfold ends_value; rewrite Hc, orb_true_r; reflexivity.
Qed.

(** [json.loads] of the text [dumps] writes, with JSON whitespace around. *)
Lemma loads_ws_dumps (v : json) (ws1 ws2 : string) :
  wf v = true -> all_chars_in is_json_ws ws1 = true -> all_chars_in is_json_ws ws2 = true ->
  loads (ws1 ++ dumps v ++ ws2) = Some v.
Proof.
  intros Hwf H1 H2. unfold loads.
  rewrite skip_ws_app_ws by exact H1. rewrite skip_ws_dumps.
  destruct (parse_dumps (S (String.length (ws1 ++ dumps v ++ ws2)))) as (Hv & _).
  rewrite Hv; [| exact Hwf | | apply ends_ws, H2].
  - rewrite skip_ws_all by exact H2; reflexivity.
  - pose proof (need_le_length v). rewrite !slen_app. lia.
Qed.

Lemma loads_dumps (v : json) : wf v = true -> loads (dumps v) = Some v.
Proof.
  intros Hwf. rewrite <- (sapp_nil_r (dumps v)).
  exact (loads_ws_dumps v EmptyString EmptyString Hwf eq_refl eq_refl).
Qed.

(** ** Characters of [dumps] *)





Lemma escape_char_printable (c : ascii) : all_chars_in is_printable (escape_char c) = true.
Proof. all_chars c; vm_compute; reflexivity. Qed.

Lemma hex_digit_printable (d : N) : (d < 16)%N -> is_printable (hex_digit d) = true.
Proof.
  intros H.
  assert (d = 0 \/ d = 1 \/ d = 2 \/ d = 3 \/ d = 4 \/ d = 5 \/ d = 6 \/ d = 7 \/ d = 8 \/ d = 9
          \/ d = 10 \/ d = 11 \/ d = 12 \/ d = 13 \/ d = 14 \/ d = 15)%N as Hd by lia.
  repeat destruct Hd as [-> | Hd]; try reflexivity; subst; reflexivity.
Qed.

Lemma u_escape_printable (m : N) : all_chars_in is_printable (u_escape m) = true.
Proof.
  unfold u_escape. cbn [all_chars_in sing].
  rewrite !hex_digit_printable by (apply N.mod_lt; discriminate). reflexivity.
Qed.

Lemma escape_cp_printable (n : N) : all_chars_in is_printable (escape_cp n) = true.
Proof.
  unfold escape_cp. destruct (n <? 128)%N; [apply escape_char_printable|].
  destruct (n <? 65536)%N; [apply u_escape_printable|].
  rewrite all_chars_in_app, !u_escape_printable. reflexivity.
Qed.

Lemma escape_cps_printable (l : list N) : all_chars_in is_printable (escape_cps l) = true.
Proof.
  induction l as [|n l IH]; simpl; [reflexivity|].
  rewrite all_chars_in_app, escape_cp_printable, IH. reflexivity.
Qed.

Lemma quote_printable (s : string) : all_chars_in is_printable (quote s) = true.
Proof. unfold quote; simpl; rewrite all_chars_in_app, escape_cps_printable; reflexivity. Qed.

Lemma uint_printable (u : uint) : all_chars_in is_printable (uint_to_string u) = true.
Proof. induction u; simpl; try rewrite IHu; reflexivity. Qed.

Lemma int_repr_printable (z : Z) : all_chars_in is_printable (int_repr z) = true.
Proof. unfold int_repr; destruct (Z.to_int z); simpl; rewrite uint_printable; reflexivity. Qed.

Lemma dumps_printable (v : json) : all_chars_in is_printable (dumps v) = true.
Proof.
  induction v as [| b | z | s | l IH | kvs IH] using json_ind'.
  - reflexivity.
  - destruct b; reflexivity.
  - apply int_repr_printable.
  - apply quote_printable.
  - destruct l as [|x xs]; [reflexivity|].
    rewrite dumps_list_cons. simpl. rewrite all_chars_in_app.
    inversion IH as [|? ? Hx Hxs]; subst. rewrite Hx. simpl.
    clear Hx IH. induction Hxs as [|y ys Hy _ IHys]; [reflexivity|].
    simpl. rewrite !all_chars_in_app, Hy, IHys. reflexivity.
  - destruct kvs as [|[k x] kvs]; [reflexivity|].
    inversion IH as [|? ? Hx Hkvs]; subst. simpl in Hx.
    assert (Hm : all_chars_in is_printable (dumps_members kvs) = true).
    { clear Hx IH. induction Hkvs as [|[k' y] l Hy _ IHl]; [reflexivity|].
      simpl in Hy. cbn [dumps_members].
      rewrite !all_chars_in_app, quote_printable, Hy, IHl. reflexivity. }
    rewrite dumps_dict_cons. cbn [all_chars_in].
    rewrite !all_chars_in_app, quote_printable, Hx, Hm. reflexivity.
Qed.



Lemma dumps_no_newline (v : json) : has_char newline (dumps v) = false.
Proof. exact (all_chars_no_char is_printable newline _ eq_refl (dumps_printable v)). Qed.

(** ** [.decode().strip()] of a line holding [dumps v] *)

Lemma space_cp_le (n : N) : is_space_cp n = true -> (n <= 12288)%N.
Proof.
  unfold is_space_cp. intros H.
  repeat rewrite orb_true_iff in H. repeat rewrite andb_true_iff in H.
  repeat rewrite N.leb_le in H. repeat rewrite N.eqb_eq in H. lia.
Qed.

Lemma space_cp_ok (sg : bool) (n : N) : is_space_cp n = true -> cp_ok sg n = true.
Proof.
  intros H. apply space_cp_le in H. unfold cp_ok, is_surrogate.
  rewrite (proj2 (N.leb_le n 1114111)) by lia. rewrite (proj2 (N.leb_gt 55296 n)) by lia.
  destruct sg; reflexivity.
Qed.

Lemma spaces_cp_ok (sg : bool) (l : list N) :
  forallb is_space_cp l = true -> forallb (cp_ok sg) l = true.
Proof.
  induction l as [|n l IH]; simpl; [reflexivity|].
  intros H; apply andb_prop in H as [H1 H2]. rewrite space_cp_ok, IH by assumption. reflexivity.
Qed.


Lemma drop_space_spaces (ws l : list N) :
  forallb is_space_cp ws = true -> drop_space (ws ++ l) = drop_space l.
Proof.
  induction ws as [|n ws IH]; simpl; [reflexivity|].
  intros H; apply andb_prop in H as [H1 H2]. rewrite H1. apply IH, H2.
Qed.





End JsonFacts.

Module BridgeFacts.
Import Json Bridge Scenario JsonFacts.

(** A computation that leaves the client object as it found it. *)
Definition keeps_state {A} (c : M A) : Prop := forall st, snd (c st) = st.

Lemma keeps_ret {A} (a : A) : keeps_state (ret a).
Proof. intros st; reflexivity. Qed.

Lemma keeps_raise {A} (e : exn) : keeps_state (@raise A e).
Proof. intros st; reflexivity. Qed.

Lemma keeps_lift {A} (r : res A) : keeps_state (lift r).
Proof. intros st; reflexivity. Qed.

Lemma keeps_bind {A B} (c : M A) (k : A -> M B) :
  keeps_state c -> (forall a, keeps_state (k a)) -> keeps_state (bind c k).
Proof.
  intros Hc Hk st; unfold bind.
  specialize (Hc st); destruct (c st) as [[a|e] st']; simpl in *; subst; [apply Hk|reflexivity].
Qed.

Lemma keeps_if {A} (b : bool) (c d : M A) :
  keeps_state c -> keeps_state d -> keeps_state (if b then c else d).
Proof. destruct b; auto. Qed.

Create HintDb keeps.
#[local] Hint Resolve keeps_ret keeps_raise keeps_lift keeps_bind keeps_if : keeps.

Lemma server_command_keeps (config : json) : keeps_state (server_command config).
Proof. unfold server_command; repeat (apply keeps_bind || apply keeps_if || auto with keeps; intros). Qed.

Lemma handle_response_keeps (r : json) : keeps_state (handle_response r).
Proof. unfold handle_response; repeat (apply keeps_bind || apply keeps_if || auto with keeps; intros). Qed.

(** The endpoint leaves the client exactly as [send_request] left it. *)
Lemma endpoint_state (req : json) (st : client) :
  snd (endpoint req st) = snd (send_request req st).
Proof.
  unfold endpoint, catch, bind.
  destruct (send_request req st) as [[r|e] st']; simpl; [|reflexivity].
  pose proof (handle_response_keeps r st') as H.
  destruct (handle_response r st') as [[a|e] st'']; simpl in *; congruence.
Qed.

(** What the endpoint returns when [send_request] raised. *)
Lemma endpoint_err (req : json) (st st' : client) (e : exn) :
  send_request req st = (Err e, st') ->
  endpoint req st = (Ok (mkResponse false None (Some e)), st').
Proof. intros H; unfold endpoint, catch, bind; rewrite H; reflexivity. Qed.

Lemma endpoint_ok (req : json) (st st' : client) (r : json) :
  send_request req st = (Ok r, st') -> endpoint req st = catch (handle_response r)
        (fun e => ret (mkResponse false None (Some e))) st'.
Proof. intros H; unfold endpoint, catch, bind; rewrite H; reflexivity. Qed.

Lemma split_line_line (l r : string) :
  has_char newline l = false -> split_line (l ++ sing newline ++ r) = (l ++ sing newline, r).
Proof.
  induction l as [|c l IH]; intros H; [reflexivity|].
  simpl in H. apply orb_false_iff in H as [H1 H2].
  assert (E : ceq c newline = false)
    by (unfold ceq in *; apply Bool.not_true_iff_false; intros E;
        apply Ascii.eqb_eq in E; subst; vm_compute in H1; discriminate).
  cbn [append split_line]. rewrite E. rewrite IH by exact H2. reflexivity.
Qed.

Lemma slen_line (l : string) : N.of_nat (String.length (l ++ sing newline)) = (N.of_nat (String.length l) + 1)%N.
Proof. rewrite slen_app. simpl. lia. Qed.

(** A line of at most [stream_limit] bytes before its newline is returned whole. *)
Lemma readline_ok_line (l r : string) :
  has_char newline l = false -> (N.of_nat (String.length l) <= stream_limit)%N ->
  readline (l ++ sing newline ++ r) = (Ok (l ++ sing newline), r).
Proof.
  intros Hn Hl. unfold readline. rewrite split_line_line by exact Hn.
  rewrite has_char_app, orb_true_r, slen_line.
  replace (N.of_nat (String.length l) + 1 - 1)%N with (N.of_nat (String.length l)) by lia.
  rewrite (proj2 (N.ltb_ge _ _)) by exact Hl. reflexivity.
Qed.

(** A longer one raises [ValueError] and is dropped through its newline. *)
Lemma readline_long_line (l r : string) :
  has_char newline l = false -> (stream_limit < N.of_nat (String.length l))%N ->
  readline (l ++ sing newline ++ r) = (Err ValueError, r).
Proof.
  intros Hn Hl. unfold readline. rewrite split_line_line by exact Hn.
  rewrite has_char_app, orb_true_r, slen_line.
  replace (N.of_nat (String.length l) + 1 - 1)%N with (N.of_nat (String.length l)) by lia.
  rewrite (proj2 (N.ltb_lt _ _)) by exact Hl. reflexivity.
Qed.


(** [send_request] on an open child whose next line is [l ++ "\n"]. *)
Lemma send_request_line (req : json) (st : client) (p : proc) (l rest : string) :
  process st = Some p -> stdin_open p = true -> read_ok p = true ->
  stdout_buf p = l ++ sing newline ++ rest -> has_char newline l = false ->
  (N.of_nat (String.length l) <= stream_limit)%N ->
  send_request req st =
    (match utf8_decode (l ++ sing newline) with
     | None => Err UnicodeDecodeError
     | Some text => match loads (py_strip text) with Some v => Ok v | None => Err JSONDecodeError end
     end,
     mkClient (Some (mkProc true true (stdin_log p ++ [request_line req]) rest)) (connected st)).
Proof.
  intros Hp Ho Hr Hb Hn Hl. unfold send_request. rewrite Hp, Ho. simpl. rewrite Hr. simpl.
  rewrite Hb, readline_ok_line by assumption. unfold with_buf, with_log. simpl. rewrite Ho, Hr.
  destruct (utf8_decode _); [destruct (loads _)|]; reflexivity.
Qed.

(** [send_request] on an open child whose next line is longer than
    [stream_limit]. *)
Lemma send_request_long (req : json) (st : client) (p : proc) (l rest : string) :
  process st = Some p -> stdin_open p = true -> read_ok p = true ->
  stdout_buf p = l ++ sing newline ++ rest -> has_char newline l = false ->
  (stream_limit < N.of_nat (String.length l))%N ->
  send_request req st =
    (Err ValueError, mkClient (Some (mkProc true true (stdin_log p ++ [request_line req]) rest)) (connected st)).
Proof.
  intros Hp Ho Hr Hb Hn Hl. unfold send_request. rewrite Hp, Ho. simpl. rewrite Hr. simpl.
  rewrite Hb, readline_long_line by assumption. unfold with_buf, with_log. simpl. rewrite Ho, Hr.
  reflexivity.
Qed.

(** The branches of [send_request] after [readline]. *)
Ltac read_cases :=
  destruct (readline _) as [[?l|?e] ?rest]; [destruct (utf8_decode _); [destruct (loads _)|]|].

(** [send_request] never touches [self.connected]. *)
Lemma send_request_connected (req : json) (st : client) :
  connected (snd (send_request req st)) = connected st.
Proof.
  unfold send_request.
  destruct (process st) as [p|]; [|reflexivity].
  destruct (negb (stdin_open p)); [reflexivity|].
  destruct (negb (read_ok _)); [reflexivity|].
  read_cases; reflexivity.
Qed.

(** [send_request] keeps a process when there is one and never installs one. *)
Lemma send_request_process (req : json) (st : client) :
  (process (snd (send_request req st)) = None <-> process st = None).
Proof.
  unfold send_request.
  destruct (process st) as [p|] eqn:E; [|simpl; rewrite E; tauto].
  destruct (negb (stdin_open p)); [simpl; rewrite E; tauto|].
  destruct (negb (read_ok _)); [simpl; split; discriminate|].
  read_cases; simpl; split; discriminate.
Qed.

(** [send_request] writes at most one line, the request's own line. *)
Lemma send_request_written (req : json) (st : client) :
  written (snd (send_request req st)) = written st \/
  written (snd (send_request req st)) = (written st ++ [request_line req])%list.
Proof.
  unfold send_request, written.
  destruct (process st) as [p|] eqn:E; [|left; simpl; rewrite E; reflexivity].
  destruct (negb (stdin_open p)); [left; simpl; rewrite E; reflexivity|].
  right; destruct (negb (read_ok _)); [reflexivity|].
  read_cases; reflexivity.
Qed.

Lemma endpoint_written (req : json) (st : client) :
  written (snd (endpoint req st)) = written st \/
  written (snd (endpoint req st)) = (written st ++ [request_line req])%list.
Proof. rewrite endpoint_state; apply send_request_written. Qed.

(** [connect] unfolded along a successful [server_command]. *)
Lemma connect_unfold (config : json) (spawn : list json -> option proc) (st : client) (cmd : list json) :
  fst (server_command config st) = Ok cmd ->
  connect config spawn st =
    match spawn cmd with
    | None => (Err SpawnError, st)
    | Some p =>
        match send_request init_request (mkClient (Some p) (connected st)) with
        | (Ok _, st2) => (Ok tt, mkClient (process st2) true)
        | (Err e, st2) => (Err e, st2)
        end
    end.
Proof.
  intros H; unfold connect at 1, bind at 1.
  pose proof (server_command_keeps config st) as K.
  destruct (server_command config st) as [r st'] eqn:E; simpl in H, K; subst.
  destruct (spawn cmd); reflexivity.
Qed.

Lemma connect_unfold_err (config : json) (spawn : list json -> option proc) (st : client) (e : exn) :
  fst (server_command config st) = Err e -> connect config spawn st = (Err e, st).
Proof.
  intros H; unfold connect at 1, bind at 1.
  pose proof (server_command_keeps config st) as K.
  destruct (server_command config st) as [r st'] eqn:E; simpl in H, K; subst; reflexivity.
Qed.

Lemma server_command_cases (config : json) (st : client) :
  (exists cmd, fst (server_command config st) = Ok cmd) \/
  (exists e, fst (server_command config st) = Err e).
Proof. destruct (fst (server_command config st)) as [c|e]; eauto. Qed.

End BridgeFacts.

Module BridgeClaims.
Import Json Bridge Scenario JsonFacts BridgeFacts.

(** C1 (amended): every request carries a constant id: 1 for the
    [initialize] handshake, 2 for [tools/list], 3 for [tools/call], 4 for
    [/mcp/request]; each endpoint call writes at most one line to the child,
    that constant request's own line.  Repeated calls thus repeat ids. *)
Theorem request_ids_fixed :
  py_get init_request "id" JNull = Ok (JInt 1) /\
  py_get list_tools_request "id" JNull = Ok (JInt 2) /\
  (forall n ps, py_get (call_tool_request n ps) "id" JNull = Ok (JInt 3)) /\
  (forall m ps, py_get (mcp_request_request m ps) "id" JNull = Ok (JInt 4)) /\
  (forall st, written (snd (list_tools st)) = written st \/
              written (snd (list_tools st)) = (written st ++ [request_line list_tools_request])%list) /\
  (forall n ps st, written (snd (call_tool n ps st)) = written st \/
              written (snd (call_tool n ps st)) = (written st ++ [request_line (call_tool_request n ps)])%list) /\
  (forall m ps st, written (snd (send_mcp_request m ps st)) = written st \/
              written (snd (send_mcp_request m ps st)) = (written st ++ [request_line (mcp_request_request m ps)])%list).
Proof.
  split; [reflexivity|]. split; [reflexivity|].
  split; [reflexivity|]. split; [reflexivity|].
  split; [intros; apply endpoint_written|].
  split; intros; apply endpoint_written.
Qed.

(** C1 counterexample: over one connected session, [connect] then two
    [GET /tools] calls send the ids 1, 2, 2: the third request repeats
    the second's id and is not greater than it. *)
Lemma request_ids_repeat :
  let st := snd ((_ <- connect demo_config
                        (spawn_with (child_with [dumps (resp_ok 1); dumps (resp_ok 2); dumps (resp_ok 2)])) ;;
                  _ <- list_tools ;; list_tools) init_client) in
  map request_id (written st) = [Some (JInt 1); Some (JInt 2); Some (JInt 2)] /\
  connected st = true.
Proof. vm_compute; split; reflexivity. Qed.







(** C4 (amended): a failure inside [send_request] (no process, closed
    stdin, failed read, end of stream or an undecodable line) is surfaced:
    the endpoint returns [success=false] carrying that exception.  It does
    not end the session: [connected] and the presence of the process are
    the same afterwards as before. *)
Theorem transport_failure_keeps_session (req : json) (st : client) :
  match send_request req st with
  | (Err e, st') =>
      connected st' = connected st /\
      (process st' = None <-> process st = None) /\
      endpoint req st = (Ok (mkResponse false None (Some e)), st')
  | (Ok _, st') => connected st' = connected st
  end.
Proof.
  pose proof (send_request_connected req st) as Hc.
  pose proof (send_request_process req st) as Hp.
  destruct (send_request req st) as [[r|e] st'] eqn:E; simpl in *; [exact Hc|].
  split; [exact Hc|split; [exact Hp|]].
  apply endpoint_err; exact E.
Qed.

(** C4 counterexample: a connected session whose child has closed its
    stdout (end of stream): [GET /tools] returns [success=false] and the
    session is still reported as connected. *)
Lemma eof_keeps_connected :
  let r := list_tools (connected_to []) in
  fst r = Ok (mkResponse false None (Some JSONDecodeError)) /\ connected (snd r) = true.
Proof. vm_compute; split; reflexivity. Qed.

(** C5 (amended): when [send_request] raises (not connected, a transport
    failure or an undecodable reply), the endpoint answers HTTP 200 with a
    body [success=false] carrying the exception: a successful HTTP response
    that carries the error. *)
Theorem core_errors_http_200 (req : json) (st : client) (e : exn) :
  fst (send_request req st) = Err e ->
  fst (serve (endpoint req) st) = Ok (200%Z, Some (mkResponse false None (Some e))).
Proof.
  intros H; unfold serve.
  destruct (send_request req st) as [r st'] eqn:E; simpl in H; subst.
  rewrite (endpoint_err req st st' e E); reflexivity.
Qed.

Lemma core_errors_http_200_witness :
  fst (serve list_tools init_client) =
  Ok (200%Z, Some (mkResponse false None (Some (Exception "MCP server not connected")))).
Proof. apply core_errors_http_200; reflexivity. Defined.

(** C5 counterexample: a connected session whose child has closed its
    stdout: [GET /tools] answers with status 200. *)
Lemma transport_failure_is_http_200 :
  fst (serve list_tools (connected_to [])) =
  Ok (200%Z, Some (mkResponse false None (Some JSONDecodeError))).
Proof. vm_compute; reflexivity. Qed.




(** C8: once [connect] has spawned a child with an open stdin, the child
    has been sent exactly one more line, [json.dumps(init_request) + '\n'];
    the JSON text has no newline and decodes to [init_request], whose
    method is [initialize], whose [params.protocolVersion] is the fixed
    [2024-11-05], whose [params.capabilities] is
    [{roots: {listChanged: true}, sampling: {}}] and whose
    [params.clientInfo] has string fields [name] and [version]. *)
Theorem handshake_payload (config : json) (spawn : list json -> option proc) (st : client)
    (cmd : list json) (p : proc) :
  fst (server_command config st) = Ok cmd -> spawn cmd = Some p -> stdin_open p = true ->
  written (snd (connect config spawn st)) = (stdin_log p ++ [String.append (dumps init_request) (sing newline)])%list /\
  has_char newline (dumps init_request) = false /\
  loads (dumps init_request) = Some init_request /\
  py_get init_request "method" JNull = Ok (JStr "initialize") /\
  exists params info,
    py_get init_request "params" JNull = Ok params /\
    py_get params "protocolVersion" JNull = Ok (JStr "2024-11-05") /\
    py_get params "capabilities" JNull =
      Ok (JDict [("roots", JDict [("listChanged", JBool true)]); ("sampling", JDict [])]) /\
    py_get params "clientInfo" JNull = Ok info /\
    (exists n, py_get info "name" JNull = Ok (JStr n)) /\
    (exists v, py_get info "version" JNull = Ok (JStr v)).
Proof.
  intros Hc Hs Ho.
  split.
  - rewrite (connect_unfold config spawn st cmd Hc), Hs.
    unfold send_request; simpl; rewrite Ho; simpl.
    destruct (negb (read_ok p)); [reflexivity|].
    read_cases; reflexivity.
  - split; [apply dumps_no_newline|].
    split; [apply loads_dumps; vm_compute; reflexivity|].
    split; [reflexivity|].
    eexists; eexists; split; [reflexivity|].
    split; [reflexivity|]. split; [reflexivity|]. split; [reflexivity|].
    split; eexists; reflexivity.
Qed.

Lemma handshake_payload_witness :
  written (snd (connect demo_config (spawn_with (child_with [])) init_client)) =
    [dumps init_request ++ sing newline].
Proof.
  exact (proj1 (handshake_payload demo_config (spawn_with (child_with [])) init_client
           demo_command (child_with []) eq_refl eq_refl eq_refl)).
Defined.

(** C9 (amended): while the client has no child process ([self.process is
    None]: before any [connect], or after one that failed before the spawn),
    [send_request] raises [MCP server not connected] without touching the
    client, and every endpoint returns [success=false] with that error.  A
    [connect] that fails before spawning leaves [self.process] as [None]. *)
Theorem no_process_not_connected (st : client) :
  process st = None ->
  (forall req, send_request req st = (Err (Exception "MCP server not connected"), st)) /\
  list_tools st = (Ok (mkResponse false None (Some (Exception "MCP server not connected"))), st) /\
  (forall n ps, call_tool n ps st =
     (Ok (mkResponse false None (Some (Exception "MCP server not connected"))), st)) /\
  (forall m ps, send_mcp_request m ps st =
     (Ok (mkResponse false None (Some (Exception "MCP server not connected"))), st)) /\
  (forall config spawn,
     (forall cmd, fst (server_command config st) = Ok cmd -> spawn cmd = None) ->
     process (snd (connect config spawn st)) = None).
Proof.
  intros Hp.
  assert (Hs : forall req, send_request req st = (Err (Exception "MCP server not connected"), st))
    by (intros req; unfold send_request; rewrite Hp; reflexivity).
  split; [exact Hs|].
  split; [apply endpoint_err, Hs|].
  split; [intros; apply endpoint_err, Hs|].
  split; [intros; apply endpoint_err, Hs|].
  intros config spawn Hn.
  destruct (server_command_cases config st) as [[cmd Hc]|[e Hc]].
  - rewrite (connect_unfold config spawn st cmd Hc), (Hn cmd Hc); exact Hp.
  - rewrite (connect_unfold_err config spawn st e Hc); exact Hp.
Qed.

Lemma no_process_not_connected_witness :
  list_tools init_client =
  (Ok (mkResponse false None (Some (Exception "MCP server not connected"))), init_client).
Proof. exact (proj1 (proj2 (no_process_not_connected init_client eq_refl))). Defined.

(** C9 counterexample: [connect()] fails because the handshake reply is
    not JSON, so it never succeeded; yet the spawned process is kept, and a
    later [GET /tools] writes its request to the child and succeeds. *)
Lemma failed_connect_keeps_process :
  let c := child_with ["not json"; dumps (resp_ok 2)] in
  let r0 := connect demo_config (spawn_with c) init_client in
  let r1 := list_tools (snd r0) in
  fst r0 = Err JSONDecodeError /\ connected (snd r0) = false /\
  written (snd r1) = [request_line init_request; request_line list_tools_request] /\
  fst r1 = Ok (mkResponse true (Some (JDict [("tools", JList [])])) None).
Proof. vm_compute; repeat split; reflexivity. Qed.

(** C10: [/health] reports status [healthy] in every state; its
    [mcp_connected] field is the connected flag and the state is not
    changed. *)
Theorem health_always_healthy (config : json) (st : client) :
  health_check config st = (Ok (mkHealth "healthy" (connected st) (truthy config)), st) /\
  (forall h, fst (health_check config st) = Ok h -> status h = "healthy" /\ mcp_connected h = connected st).
Proof.
  split; [reflexivity|].
  intros h H; simpl in H; injection H as <-; split; reflexivity.
Qed.

End BridgeClaims.

Module InterleaveFacts.
Import Json Bridge Scenario Interleave JsonFacts BridgeFacts.

Lemma pc_of_set_pc (t : task) (p : pc) (w : world) : pc_of t (set_pc t p w) = p.
Proof. destruct t; reflexivity. Qed.

Lemma set_pc_io (t : task) (p : pc) (q : list string) (b : string) (wt : option task) (w : world) :
  to_child (set_pc t p (set_io q b wt w)) = q /\ buf (set_pc t p (set_io q b wt w)) = b /\
  waiter (set_pc t p (set_io q b wt w)) = wt.
Proof. destruct t; repeat split. Qed.

Lemma steps_cons_eq (answer : string -> string) (w1 w2 w2' w3 : world) :
  step answer w1 w2 -> w2 = w2' -> steps answer w2' w3 -> steps answer w1 w3.
Proof. intros H ->; apply steps_cons; exact H. Qed.

(** Take one step, with the world reached written out in normal form. *)
Ltac next_step tac := eapply steps_cons_eq; [tac | cbv; reflexivity | ].

(** C6 (amended): [send_request] takes no lock and keeps no busy flag.
    A task about to write can always write, whatever the other task is
    doing (even while it is suspended in [readline] on its own request).
    A task's [readline] returns the first line in the buffer when there is
    one of at most [stream_limit] bytes before its newline, whichever
    request that line answers, and leaves the rest of the buffer. *)
Theorem no_single_flight (answer : string -> string) (t : task) (w : world) :
  pc_of t w = ToWrite ->
  (exists w', step answer w w' /\ pc_of t w' = ToRead /\
              to_child w' = (to_child w ++ [req_of t w])%list) /\
  (forall w1 l rest, to_child w1 = (to_child w ++ [req_of t w])%list -> pc_of t w1 = ToRead ->
     buf w1 = l ++ sing newline ++ rest -> has_char newline l = false ->
     (N.of_nat (String.length l) <= stream_limit)%N ->
     step answer w1 (read_step t w1) /\
     pc_of t (read_step t w1) = Returned (l ++ sing newline) /\
     buf (read_step t w1) = rest).
Proof.
  intros H; split.
  - eexists; split; [apply step_write; exact H|].
    rewrite pc_of_set_pc; split; [reflexivity|].
    apply set_pc_io.
  - intros w1 l rest _ Hr Hb Hn Hl; split; [apply step_read; exact Hr|].
    unfold read_step; rewrite Hb, has_char_app, orb_true_r, readline_ok_line by assumption.
    split; [apply pc_of_set_pc|apply set_pc_io].
Qed.

Lemma no_single_flight_witness :
  exists w', step echo_answer (start (request_line list_tools_request) EmptyString) w' /\
    pc_of TA w' = ToRead /\ to_child w' = [request_line list_tools_request].
Proof.
  exact (proj1 (no_single_flight echo_answer TA
                  (start (request_line list_tools_request) EmptyString) eq_refl)).
Defined.

(** C6 counterexample: [GET /tools] (id 2) in task [TA] and
    [/mcp/request] (id 4) in task [TB] run concurrently against a server
    that answers each request with its own id.  [TA] writes and waits; the
    server answers; [TB] writes and its [readline] takes [TA]'s answer;
    [TA] waits again, the server answers [TB]'s request and [TA] reads that
    answer.  Each task receives the response to the other's request. *)
Lemma responses_swapped :
  let ra := request_line list_tools_request in
  let rb := request_line (mcp_request_request "ping" None) in
  exists w la lb,
    steps echo_answer (start ra rb) w /\
    pc_a w = Returned la /\ pc_b w = Returned lb /\
    request_id ra = Some (JInt 2) /\ request_id rb = Some (JInt 4) /\
    request_id la = Some (JInt 4) /\ request_id lb = Some (JInt 2).
Proof.
  intros ra rb.
  eexists; eexists; eexists; split.
  - next_step ltac:(apply (step_write _ TA); reflexivity).
    next_step ltac:(apply (step_read _ TA); reflexivity).
    next_step ltac:(apply (step_child _ ra []); reflexivity).
    next_step ltac:(apply (step_write _ TB); reflexivity).
    next_step ltac:(apply (step_read _ TB); reflexivity).
    next_step ltac:(apply (step_resume _ TA); [reflexivity|discriminate]).
    next_step ltac:(apply (step_child _ rb []); reflexivity).
    next_step ltac:(apply (step_resume _ TA); [reflexivity|discriminate]).
    apply steps_refl.
  - split; [reflexivity|]. split; [reflexivity|].
    vm_compute; repeat split; reflexivity.
Qed.

End InterleaveFacts.

Module CodecFacts.
Import Json Bridge Scenario App JsonFacts BridgeFacts.


Lemma encode_cps_app (a b : list N) : encode_cps (a ++ b) = encode_cps a ++ encode_cps b.
Proof.
  induction a as [|n a IH]; simpl; [reflexivity|].
  fold (encode_cps (a ++ b)) (encode_cps a). rewrite IH, sapp_assoc. reflexivity.
Qed.

(** The code points [str.strip] removes, listed. *)
Lemma space_cp_cases (n : N) : is_space_cp n = true ->
  In n [9; 10; 11; 12; 13; 28; 29; 30; 31; 32; 133; 160; 5760;
        8192; 8193; 8194; 8195; 8196; 8197; 8198; 8199; 8200; 8201; 8202;
        8232; 8233; 8239; 8287; 12288]%N.
Proof.
  unfold is_space_cp. intros H.
  repeat rewrite orb_true_iff in H. repeat rewrite andb_true_iff in H.
  repeat rewrite N.leb_le in H. repeat rewrite N.eqb_eq in H.
  simpl. lia.
Qed.

(** Whitespace other than the line feed is encoded without a newline byte. *)
Lemma space_utf8_no_newline (n : N) :
  is_space_cp n = true -> n <> 10%N -> has_char newline (utf8_cp n) = false.
Proof.
  intros H Hn. apply space_cp_cases in H.
  assert (K : forallb (fun m => (m =? 10)%N || negb (has_char newline (utf8_cp m)))
    [9; 10; 11; 12; 13; 28; 29; 30; 31; 32; 133; 160; 5760;
     8192; 8193; 8194; 8195; 8196; 8197; 8198; 8199; 8200; 8201; 8202;
     8232; 8233; 8239; 8287; 12288]%N = true) by (vm_compute; reflexivity).
  rewrite forallb_forall in K. specialize (K n H).
  apply N.eqb_neq in Hn. rewrite Hn in K. simpl in K.
  destruct (has_char newline (utf8_cp n)); [discriminate|reflexivity].
Qed.

Lemma line_spaces (l : list N) :
  forallb (fun n => is_space_cp n && negb (n =? 10)%N) l = true ->
  forallb is_space_cp l = true /\ has_char newline (encode_cps l) = false.
Proof.
  induction l as [|n l IH]; simpl; [split; reflexivity|].
  intros H. apply andb_prop in H as [H1 H2]. apply andb_prop in H1 as [Hs Hn].
  destruct (IH H2) as [IH1 IH2]. rewrite Hs, IH1. split; [reflexivity|].
  fold (encode_cps l). rewrite has_char_app, IH2, orb_false_r.
  apply space_utf8_no_newline; [exact Hs|].
  intros E. subst n. discriminate Hn.
Qed.







End CodecFacts.

Module BridgeExtras.
Import Json Bridge Scenario App JsonFacts BridgeFacts CodecFacts.

Lemma dict_lookup_existsb (d : list (string * json)) (k : string) :
  existsb (fun kv => String.eqb k (fst kv)) d =
  match dict_lookup d k with Some _ => true | None => false end.
Proof.
  induction d as [|[k' v'] d IH]; simpl; [reflexivity|].
  destruct (String.eqb k k'); [reflexivity | exact IH].
Qed.

(** [handle_response] on an object reply. *)
Lemma handle_response_dict (d : list (string * json)) (st : client) :
  catch (handle_response (JDict d)) (fun e => ret (mkResponse false None (Some e))) st =
  (Ok (match dict_lookup d "error" with
       | Some detail => mkResponse false None (Some (HTTPException 500 detail))
       | None => mkResponse true (Some (match dict_lookup d "result" with Some r => r | None => JDict [] end)) None
       end), st).
Proof.
  unfold catch, handle_response, bind, lift, py_in, py_getitem, py_get, raise, ret.
  rewrite dict_lookup_existsb.
  destruct (dict_lookup d "error"); [reflexivity|].
  destruct (dict_lookup d "result"); reflexivity.
Qed.

(** [handle_response] raises on every reply that is not an object. *)
Lemma handle_response_other (r : json) (st : client) :
  (forall d, r <> JDict d) ->
  exists e, catch (handle_response r) (fun e => ret (mkResponse false None (Some e))) st =
            (Ok (mkResponse false None (Some e)), st).
Proof.
  intros H.
  destruct r as [| b | z | s | l | d]; [eexists; reflexivity .. | | | exfalso; exact (H d eq_refl)].
  - unfold catch, handle_response, bind, lift, py_in.
    destruct (contains_sub "error" s); eexists; reflexivity.
  - unfold catch, handle_response, bind, lift, py_in.
    destruct (existsb _ l); eexists; reflexivity.
Qed.

Lemma endpoint_unfold (req : json) (st : client) :
  endpoint req st =
  match send_request req st with
  | (Ok r, st') => catch (handle_response r) (fun e => ret (mkResponse false None (Some e))) st'
  | (Err e, st') => (Ok (mkResponse false None (Some e)), st')
  end.
Proof.
  unfold endpoint, catch at 1, bind.
  destruct (send_request req st) as [[r|e] st']; [|reflexivity].
  unfold catch; destruct (handle_response r st') as [[a|e] st'']; reflexivity.
Qed.

(** X4: a reply object with an ["error"] key makes the endpoint return
    [success=false] with [HTTPException(500, detail)], where [detail] is
    the value of that key; the client is left as [send_request] left it. *)
Theorem endpoint_error_reply (req : json) (st : client) (d : list (string * json)) (detail : json) :
  fst (send_request req st) = Ok (JDict d) -> dict_lookup d "error" = Some detail ->
  endpoint req st =
  (Ok (mkResponse false None (Some (HTTPException 500 detail))), snd (send_request req st)).
Proof.
  intros H Hd. rewrite endpoint_unfold.
  destruct (send_request req st) as [r st']; simpl in H; subst.
  rewrite handle_response_dict, Hd; reflexivity.
Qed.

Lemma endpoint_error_reply_witness :
  endpoint list_tools_request (connected_to [dumps (resp_err 2)]) =
  (Ok (mkResponse false None (Some (HTTPException 500
         (JDict [("code", JInt (-32601)); ("message", JStr "Method not found")])))),
   snd (send_request list_tools_request (connected_to [dumps (resp_err 2)]))).
Proof.
  apply (endpoint_error_reply list_tools_request (connected_to [dumps (resp_err 2)])
           [("jsonrpc", JStr "2.0"); ("id", JInt 2);
            ("error", JDict [("code", JInt (-32601)); ("message", JStr "Method not found")])]);
    vm_compute; reflexivity.
Defined.

(** X5: a reply object without an ["error"] key makes the endpoint return
    [success=true] with the value of its ["result"] key, or [{}] when the
    reply has none. *)
Theorem endpoint_result_reply (req : json) (st : client) (d : list (string * json)) :
  fst (send_request req st) = Ok (JDict d) -> dict_lookup d "error" = None ->
  endpoint req st =
  (Ok (mkResponse true (Some (match dict_lookup d "result" with Some r => r | None => JDict [] end)) None),
   snd (send_request req st)).
Proof.
  intros H Hd. rewrite endpoint_unfold.
  destruct (send_request req st) as [r st']; simpl in H; subst.
  rewrite handle_response_dict, Hd; reflexivity.
Qed.

Lemma endpoint_result_reply_witness :
  endpoint list_tools_request (connected_to [dumps (JDict [("jsonrpc", JStr "2.0"); ("id", JInt 2)])]) =
  (Ok (mkResponse true (Some (JDict [])) None),
   snd (send_request list_tools_request (connected_to [dumps (JDict [("jsonrpc", JStr "2.0"); ("id", JInt 2)])]))).
Proof.
  apply (endpoint_result_reply list_tools_request
           (connected_to [dumps (JDict [("jsonrpc", JStr "2.0"); ("id", JInt 2)])])
           [("jsonrpc", JStr "2.0"); ("id", JInt 2)]); vm_compute; reflexivity.
Defined.

(** X6: an endpoint reports [success=true] exactly when [send_request]
    returned a JSON object that has no ["error"] key; a reply that is not an
    object (a list, a string, a number, [true]/[false] or [null]) gives
    [success=false]. *)
Theorem endpoint_success_iff (req : json) (st : client) :
  match fst (endpoint req st) with Ok r => success r | Err _ => false end = true <->
  exists d, fst (send_request req st) = Ok (JDict d) /\ dict_lookup d "error" = None.
Proof.
  rewrite endpoint_unfold.
  destruct (send_request req st) as [[r|e] st']; cbv beta iota.
  - destruct r as [| b | z | s | l | d];
      try (match goal with |- context [handle_response ?r] =>
            destruct (handle_response_other r st' ltac:(intros d0 H0; discriminate H0)) as [e He] end;
           rewrite He; cbn [fst success]; split;
           [discriminate | intros (d0 & Hd & _); cbn [fst] in Hd; discriminate Hd]).
    rewrite handle_response_dict; simpl.
    destruct (dict_lookup d "error") eqn:E; simpl.
    + split; [discriminate | intros (d' & Hd & Hn); injection Hd as <-; congruence].
    + split; [intros _; exists d; split; [reflexivity | exact E] | reflexivity].
  - split; [discriminate | intros (d & Hd & _); discriminate].
Qed.

(** [send_request] once [readline] has returned a line. *)
Lemma send_request_ok_read (req : json) (st : client) (p : proc) (line rest : string) :
  process st = Some p -> stdin_open p = true -> read_ok p = true ->
  readline (stdout_buf p) = (Ok line, rest) ->
  send_request req st =
  (match utf8_decode line with
   | None => Err UnicodeDecodeError
   | Some text => match loads (py_strip text) with Some v => Ok v | None => Err JSONDecodeError end
   end,
   mkClient (Some (mkProc true true (stdin_log p ++ [request_line req])%list rest)) (connected st)).
Proof.
  intros Hp Ho Hr Hl. unfold send_request. rewrite Hp, Ho. simpl. rewrite Hr. simpl.
  rewrite Hl. unfold with_buf, with_log. simpl. rewrite Ho, Hr.
  destruct (utf8_decode line); [destruct (loads _)|]; reflexivity.
Qed.

Lemma split_line_no_newline (s : string) : has_char newline s = false -> split_line s = (s, EmptyString).
Proof.
  intros H. rewrite <- (sapp_nil_r s) at 1.
  induction s as [|c s IH]; [reflexivity|].
  simpl in H. apply orb_false_iff in H as [H1 H2].
  assert (E : ceq c newline = false)
    by (unfold ceq in *; apply Bool.not_true_iff_false; intros E;
        apply Ascii.eqb_eq in E; subst; vm_compute in H1; discriminate).
  cbn [append split_line]. rewrite E, (IH H2). reflexivity.
Qed.

(** At end of stream, [readline] returns what is left, [b''] included. *)
Lemma readline_eof (s : string) :
  has_char newline s = false -> (N.of_nat (String.length s) <= stream_limit)%N ->
  readline s = (Ok s, EmptyString).
Proof.
  intros Hn Hl. unfold readline. rewrite split_line_no_newline, Hn by exact Hn.
  rewrite (proj2 (N.ltb_ge _ _)) by exact Hl. reflexivity.
Qed.


(** What [.decode().strip()] leaves of a run of whitespace is empty. *)
Lemma strip_spaces (ws : list N) : forallb is_space_cp ws = true -> py_strip (encode_cps ws) = EmptyString.
Proof.
  intros H. unfold py_strip, str_cps.
  rewrite decode_encode_cps by (apply spaces_cp_ok; exact H).
  rewrite <- (List.app_nil_r ws), drop_space_spaces by exact H. reflexivity.
Qed.

(** X8: [send_request] consumes exactly one line of the child's output,
    up to and including its newline: when that output is a line [l] of at
    most [stream_limit] bytes followed by [rest], the call appends its
    request line to what the child received, leaves [rest] unread for the
    next call, and its outcome depends on [l] alone (not on the request,
    on what was written before, or on [rest]). *)
Theorem send_request_reads_one_line (req : json) (st : client) (p : proc) (l rest : string) :
  process st = Some p -> stdin_open p = true -> read_ok p = true ->
  stdout_buf p = l ++ sing newline ++ rest -> has_char newline l = false ->
  (N.of_nat (String.length l) <= stream_limit)%N ->
  snd (send_request req st) =
    mkClient (Some (mkProc true true (stdin_log p ++ [request_line req])%list rest)) (connected st) /\
  (forall req' st' p' rest', process st' = Some p' -> stdin_open p' = true -> read_ok p' = true ->
     stdout_buf p' = l ++ sing newline ++ rest' ->
     fst (send_request req' st') = fst (send_request req st)).
Proof.
  intros Hp Ho Hr Hb Hn Hl.
  rewrite (send_request_line req st p l rest Hp Ho Hr Hb Hn Hl). split; [reflexivity|].
  intros req' st' p' rest' Hp' Ho' Hr' Hb'.
  rewrite (send_request_line req' st' p' l rest' Hp' Ho' Hr' Hb' Hn Hl). reflexivity.
Qed.

Lemma send_request_reads_one_line_witness :
  snd (send_request list_tools_request (connected_to [dumps (resp_ok 2); "later"])) =
  mkClient (Some (mkProc true true ([] ++ [request_line list_tools_request])%list ("later" ++ sing newline))) true.
Proof.
  apply (proj1 (send_request_reads_one_line list_tools_request (connected_to [dumps (resp_ok 2); "later"])
           (child_with [dumps (resp_ok 2); "later"]) (dumps (resp_ok 2)) ("later" ++ sing newline)
           eq_refl eq_refl eq_refl eq_refl eq_refl ltac:(apply N.leb_le; vm_compute; reflexivity))).
Defined.



(** X10: a reply line that is blank after [.decode().strip()] (nothing
    but Unicode whitespace before its newline), or the end of stream
    ([readline] gives what is left without a newline, [b''] when nothing
    is), makes [json.loads] raise: [send_request] fails with
    [JSONDecodeError]; the request line has been written all the same, the
    blank line is consumed and the connected flag is kept. *)
Theorem send_request_blank_reply (req : json) (st : client) (p : proc) (ws : list N) (rest : string) :
  process st = Some p -> stdin_open p = true -> read_ok p = true ->
  forallb (fun n => is_space_cp n && negb (n =? 10)%N) ws = true ->
  (N.of_nat (String.length (encode_cps ws)) <= stream_limit)%N ->
  stdout_buf p = encode_cps ws ++ sing newline ++ rest \/
  (stdout_buf p = encode_cps ws /\ rest = EmptyString) ->
  send_request req st =
  (Err JSONDecodeError,
   mkClient (Some (mkProc true true (stdin_log p ++ [request_line req])%list rest)) (connected st)).
Proof.
  intros Hp Ho Hr Hw Hl Hb.
  destruct (line_spaces ws Hw) as [Hs Hn].
  destruct Hb as [Hb | [Hb ->]].
  - rewrite (send_request_line req st p _ rest Hp Ho Hr Hb Hn Hl).
    unfold utf8_decode.
    rewrite decode_app by (apply spaces_cp_ok; exact Hs). simpl.
    change (sing newline) with (encode_cps [10%N]).
    rewrite <- encode_cps_app, strip_spaces by (rewrite forallb_app, Hs; reflexivity).
    reflexivity.
  - assert (Hrd : readline (stdout_buf p) = (Ok (encode_cps ws), EmptyString))
      by (rewrite Hb; apply readline_eof; assumption).
    rewrite (send_request_ok_read req st p (encode_cps ws) EmptyString Hp Ho Hr Hrd).
    unfold utf8_decode. rewrite decode_encode_cps by (apply spaces_cp_ok; exact Hs).
    rewrite strip_spaces by exact Hs. reflexivity.
Qed.

Lemma send_request_blank_reply_witness :
  send_request list_tools_request (connected_to [utf8_cp 12288 ++ utf8_cp 13]) =
  (Err JSONDecodeError,
   mkClient (Some (mkProc true true ([] ++ [request_line list_tools_request])%list EmptyString)) true).
Proof.
  apply (send_request_blank_reply list_tools_request (connected_to [utf8_cp 12288 ++ utf8_cp 13])
           (child_with [utf8_cp 12288 ++ utf8_cp 13]) [12288%N; 13%N] EmptyString); try reflexivity.
  - apply N.leb_le; vm_compute; reflexivity.
  - left; reflexivity.
Defined.

(** X20: a reply line longer than [stream_limit] (64 KiB) before its
    newline makes [readline] raise [ValueError]: [send_request] fails with
    it, and the endpoint returns [success=false] carrying it, after the
    request line was written; the connected flag is kept. *)
Theorem send_request_long_reply (req : json) (st : client) (p : proc) (l rest : string) :
  process st = Some p -> stdin_open p = true -> read_ok p = true ->
  stdout_buf p = l ++ sing newline ++ rest -> has_char newline l = false ->
  (stream_limit < N.of_nat (String.length l))%N ->
  fst (send_request req st) = Err ValueError /\
  connected (snd (send_request req st)) = connected st /\
  written (snd (send_request req st)) = (stdin_log p ++ [request_line req])%list /\
  fst (endpoint req st) = Ok (mkResponse false None (Some ValueError)).
Proof.
  intros Hp Ho Hr Hb Hn Hl.
  pose proof (send_request_long req st p l rest Hp Ho Hr Hb Hn Hl) as E.
  rewrite E. split; [reflexivity|]. split; [reflexivity|]. split; [reflexivity|].
  rewrite (endpoint_err req st _ ValueError E). reflexivity.
Qed.

Lemma send_request_long_reply_witness :
  let long := String.concat EmptyString (repeat (dumps (resp_ok 2)) 1500) in
  fst (send_request list_tools_request (connected_to [long])) = Err ValueError /\
  connected (snd (send_request list_tools_request (connected_to [long]))) = true /\
  written (snd (send_request list_tools_request (connected_to [long]))) =
    ([] ++ [request_line list_tools_request])%list /\
  fst (endpoint list_tools_request (connected_to [long])) = Ok (mkResponse false None (Some ValueError)).
Proof.
  intros long.
  apply (send_request_long_reply list_tools_request (connected_to [long]) (child_with [long])
           long EmptyString); try reflexivity; apply N.ltb_lt; vm_compute; reflexivity.
Defined.

(** X21: a reply line that is not valid UTF-8 makes [.decode()] raise
    [UnicodeDecodeError]: [send_request] fails with it and the endpoint
    returns [success=false] carrying it; the line is consumed, so the next
    call reads the line after it. *)
Theorem send_request_bad_utf8 (req : json) (st : client) (p : proc) (l rest : string) :
  process st = Some p -> stdin_open p = true -> read_ok p = true ->
  stdout_buf p = l ++ sing newline ++ rest -> has_char newline l = false ->
  (N.of_nat (String.length l) <= stream_limit)%N ->
  utf8_decode (l ++ sing newline) = None ->
  send_request req st =
    (Err UnicodeDecodeError,
     mkClient (Some (mkProc true true (stdin_log p ++ [request_line req])%list rest)) (connected st)) /\
  fst (endpoint req st) = Ok (mkResponse false None (Some UnicodeDecodeError)).
Proof.
  intros Hp Ho Hr Hb Hn Hl Hu.
  pose proof (send_request_line req st p l rest Hp Ho Hr Hb Hn Hl) as E. rewrite Hu in E.
  split; [exact E|]. rewrite (endpoint_err req st _ UnicodeDecodeError E). reflexivity.
Qed.

Lemma send_request_bad_utf8_witness :
  let bad := String (ascii_of_nat 255) EmptyString in
  send_request list_tools_request (connected_to [bad; dumps (resp_ok 2)]) =
    (Err UnicodeDecodeError,
     mkClient (Some (mkProc true true ([] ++ [request_line list_tools_request])%list
                       (dumps (resp_ok 2) ++ sing newline ++ EmptyString))) true) /\
  fst (endpoint list_tools_request (connected_to [bad; dumps (resp_ok 2)])) =
    Ok (mkResponse false None (Some UnicodeDecodeError)).
Proof.
  intros bad.
  apply (send_request_bad_utf8 list_tools_request (connected_to [bad; dumps (resp_ok 2)])
           (child_with [bad; dumps (resp_ok 2)]) bad (dumps (resp_ok 2) ++ sing newline ++ EmptyString));
    try reflexivity.
  apply N.leb_le; vm_compute; reflexivity.
Defined.


Lemma server_command_no_servers (config : json) (st : client) (sc : json) :
  py_get config "mcpServers" (JDict []) = Ok sc -> truthy sc = false ->
  fst (server_command config st) = Err (Exception "No MCP server configuration found").
Proof. intros H Ht. unfold server_command, bind, lift, raise. rewrite H, Ht. reflexivity. Qed.

Lemma server_command_entry (config : json) (st : client) (name : string) (info : json)
    (rest : list (string * json)) (cmd args : json) :
  py_get config "mcpServers" (JDict []) = Ok (JDict ((name, info) :: rest)) ->
  py_get info "command" JNull = Ok cmd -> py_get info "args" (JList []) = Ok args ->
  fst (server_command config st) =
  if negb (truthy cmd) then Err (Exception "No command specified in MCP config") else list_plus cmd args.
Proof.
  intros H Hc Ha. unfold server_command, bind, lift, raise. rewrite H.
  cbn [truthy negb first_key py_getitem dict_lookup]. rewrite String.eqb_refl.
  rewrite Hc, Ha. destruct (negb (truthy cmd)); reflexivity.
Qed.

Lemma py_get_args (info cmd : json) :
  py_get info "command" JNull = Ok cmd -> exists args, py_get info "args" (JList []) = Ok args.
Proof.
  destruct info as [| | | | | d]; try discriminate.
  intros _; unfold py_get; destruct (dict_lookup d "args"); eexists; reflexivity.
Qed.

(** X11: when the configuration has no usable server table (["mcpServers"]
    missing, [{}], or another false value), [connect] raises [No MCP server
    configuration found] before spawning anything and leaves the client as
    it was. *)
Theorem connect_without_servers (config : json) (spawn : list json -> option proc) (st : client) (sc : json) :
  py_get config "mcpServers" (JDict []) = Ok sc -> truthy sc = false ->
  connect config spawn st = (Err (Exception "No MCP server configuration found"), st).
Proof.
  intros H Ht. apply connect_unfold_err, (server_command_no_servers config st sc H Ht).
Qed.

Lemma connect_without_servers_witness :
  connect (JDict []) (spawn_with (child_with [])) init_client =
  (Err (Exception "No MCP server configuration found"), init_client).
Proof. exact (connect_without_servers (JDict []) (spawn_with (child_with [])) init_client (JDict []) eq_refl eq_refl). Defined.

(** X12: [connect] uses the first entry of ["mcpServers"]; when its
    ["command"] is missing or false, [connect] raises [No command specified
    in MCP config] before spawning and leaves the client as it was. *)
Theorem connect_without_command (config : json) (spawn : list json -> option proc) (st : client)
    (name : string) (info : json) (rest : list (string * json)) (cmd : json) :
  py_get config "mcpServers" (JDict []) = Ok (JDict ((name, info) :: rest)) ->
  py_get info "command" JNull = Ok cmd -> truthy cmd = false ->
  connect config spawn st = (Err (Exception "No command specified in MCP config"), st).
Proof.
  intros H Hc Ht. destruct (py_get_args info cmd Hc) as [args Ha].
  apply connect_unfold_err. rewrite (server_command_entry config st name info rest cmd args H Hc Ha), Ht.
  reflexivity.
Qed.

Lemma connect_without_command_witness :
  connect (JDict [("mcpServers", JDict [("s", JDict [("args", JList [])])])])
          (spawn_with (child_with [])) init_client =
  (Err (Exception "No command specified in MCP config"), init_client).
Proof.
  exact (connect_without_command (JDict [("mcpServers", JDict [("s", JDict [("args", JList [])])])])
           (spawn_with (child_with [])) init_client "s" (JDict [("args", JList [])]) [] JNull
           eq_refl eq_refl eq_refl).
Defined.

(** X13: the command line passed to [create_subprocess_exec] is
    [[command] + args] from the first entry of ["mcpServers"], with
    [args] defaulting to [[]]; later entries are ignored.  When [args] is
    not a list, [connect] raises [TypeError]; when spawning fails it raises
    and the client is left as it was. *)
Theorem connect_command_line (config : json) (spawn : list json -> option proc) (st : client)
    (name : string) (info : json) (rest : list (string * json)) (cmd args : json) :
  py_get config "mcpServers" (JDict []) = Ok (JDict ((name, info) :: rest)) ->
  py_get info "command" JNull = Ok cmd -> truthy cmd = true ->
  py_get info "args" (JList []) = Ok args ->
  fst (server_command config st) = list_plus cmd args /\
  (forall l, args = JList l -> spawn (cmd :: l) = None -> connect config spawn st = (Err SpawnError, st)) /\
  ((forall l, args <> JList l) -> connect config spawn st = (Err TypeError, st)).
Proof.
  intros H Hc Ht Ha.
  pose proof (server_command_entry config st name info rest cmd args H Hc Ha) as E.
  rewrite Ht in E; simpl in E.
  split; [exact E|split].
  - intros l -> Hs. rewrite (connect_unfold config spawn st (cmd :: l) E), Hs. reflexivity.
  - intros Hn. apply connect_unfold_err. rewrite E.
    destruct args; try reflexivity. exfalso; exact (Hn _ eq_refl).
Qed.

Lemma connect_command_line_witness :
  fst (server_command demo_config init_client) = list_plus (JStr "echo-server") (JList []) /\
  (forall l, JList [] = JList l -> (fun _ : list json => @None proc) (JStr "echo-server" :: l) = None ->
     connect demo_config (fun _ => None) init_client = (Err SpawnError, init_client)) /\
  ((forall l, JList [] <> JList l) -> connect demo_config (fun _ => None) init_client = (Err TypeError, init_client)).
Proof.
  exact (connect_command_line demo_config (fun _ => None) init_client "echo-server"
           (JDict [("command", JStr "echo-server"); ("args", JList [])]) [] (JStr "echo-server") (JList [])
           eq_refl eq_refl eq_refl eq_refl).
Defined.








End BridgeExtras.

Module InterleaveExtras.
Import Json Bridge Interleave InterleaveFacts.

(** X19: when a second handler reaches [readline] while the first is still
    waiting in its own [readline] and no reply has arrived, the second
    [readline] raises ([RuntimeError]: another coroutine is already
    waiting); this is reachable for any two requests and any server. *)
Theorem concurrent_readline_raises (answer : string -> string) (ra rb : string) :
  exists w, steps answer (start ra rb) w /\
    pc_a w = Waiting /\ pc_b w = Raised /\ to_child w = [ra; rb] /\ waiter w = Some TA.
Proof.
  eexists; split.
  - next_step ltac:(apply (step_write _ TA); reflexivity).
    next_step ltac:(apply (step_read _ TA); reflexivity).
    next_step ltac:(apply (step_write _ TB); reflexivity).
    next_step ltac:(apply (step_read _ TB); reflexivity).
    apply steps_refl.
  - repeat split.
Qed.

End InterleaveExtras.
